(** * YTBrain client: quiz, chat and summary views

    A shallow embedding of the state-carrying parts of the React client
    ([GameView.jsx], the chat view and [SummaryView.jsx]) together with the
    properties of the quiz scoring, the chat history window, the summary
    defaults and the timestamp formatter.

    Conventions of the embedding.
    - A component's [useState] cells form one record; a setter call is a
      function on that record, and a handler is the composition of the setter
      calls it makes, in program order.
    - A handler that awaits a request is split at the [await]: a [_begin] part
      that runs up to the request and a [_settle] part that runs once the
      promise is resolved or rejected.
    - JavaScript strings are [string]s whose characters stand for code units
      below 256.
    - The counters [score] and [xp], and the numbers of a grading payload, are
      integers ([Z]); JavaScript's doubles agree with them below 2^53. *)

From Stdlib Require Import ZArith QArith Qround List String Ascii Bool Lia.
From Stdlib Require Import DecimalString DecimalZ.
Import ListNotations.

Open Scope string_scope.
Open Scope Z_scope.

(** ** JavaScript built-ins used by the views *)
Module JS.

(** [s.charAt(i)]: the one-character string at index [i], or the empty
    string when [i] is out of range. *)
Definition charAt (s : string) (i : nat) : string :=
  match String.get i s with
  | Some c => String c ""
  | None => ""
  end.

(** A string is falsy exactly when it is empty. *)
Definition truthy (s : string) : bool := negb (s =? "")%string.

(** WhiteSpace and LineTerminator code units below 256: TAB, LF, VT, FF, CR,
    SP and NBSP. *)
Definition isWhiteSpace (c : ascii) : bool :=
  let n := nat_of_ascii c in
  ((9 <=? n) && (n <=? 13) || (n =? 32) || (n =? 160))%nat.

Fixpoint trimStart (s : string) : string :=
  match s with
  | "" => ""
  | String c t => if isWhiteSpace c then trimStart t else s
  end.

Fixpoint trimEnd (s : string) : string :=
  match s with
  | "" => ""
  | String c t =>
      match trimEnd t with
      | "" => if isWhiteSpace c then "" else String c ""
      | r => String c r
      end
  end.

(** [s.trim()] *)
Definition trim (s : string) : string := trimEnd (trimStart s).

Fixpoint allWhiteSpace (s : string) : bool :=
  match s with
  | "" => true
  | String c t => isWhiteSpace c && allWhiteSpace t
  end.

(** [a.slice(start)] on an array: a negative [start] counts from the end. *)
Definition slice {A : Type} (a : list A) (start : Z) : list A :=
  let len := Z.of_nat (List.length a) in
  let k := if start <? 0 then Z.max (len + start) 0 else Z.min start len in
  skipn (Z.to_nat k) a.

(** [x || d] where [x] is a number or absent: absent and [0] are falsy. *)
Definition orNumber (x : option Z) (d : Z) : Z :=
  match x with
  | Some v => if v =? 0 then d else v
  | None => d
  end.

(** [x >= n] where [x] is a number or absent ([undefined >= n] is false). *)
Definition geNumber (x : option Z) (n : Z) : bool :=
  match x with
  | Some v => n <=? v
  | None => false
  end.

(** Number-to-string conversion of an integer (below 10^21, where
    JavaScript switches to exponent notation). *)
Definition toString (n : Z) : string :=
  NilEmpty.string_of_int (Z.to_int n).

(** The first [n] characters of [fill] repeated. *)
Fixpoint repeatTo (fill cur : string) (n : nat) : string :=
  match n with
  | O => ""
  | S k =>
      match cur with
      | String c rest => String c (repeatTo fill rest k)
      | "" =>
          match fill with
          | String c rest => String c (repeatTo fill rest k)
          | "" => ""
          end
      end
  end.

(** [s.padStart(targetLength, padString)] *)
Definition padStart (s : string) (targetLength : nat) (padString : string)
  : string :=
  if (targetLength <=? String.length s)%nat then s
  else if (padString =? "")%string then s
  else repeatTo padString padString (targetLength - String.length s) ++ s.

(** Truncation towards zero, and the remainder [x % y] it defines. *)
Definition Qtrunc (x : Q) : Z := Z.quot (Qnum x) (Zpos (Qden x)).

Definition rem (x y : Q) : Q := (x - y * inject_Z (Qtrunc (x / y)))%Q.

(** [toUpperCase] on strings of ASCII characters, the instance the worked
    examples run with. *)
Definition upperAscii (c : ascii) : ascii :=
  let n := nat_of_ascii c in
  if ((97 <=? n) && (n <=? 122))%nat then ascii_of_nat (n - 32) else c.

Fixpoint toUpperCaseAscii (s : string) : string :=
  match s with
  | "" => ""
  | String c t => String (upperAscii c) (toUpperCaseAscii t)
  end.

(** What a handler leaves behind: it returns, or it throws after having
    queued some state updates. *)
Inductive completion (S : Type) : Type :=
| Returned (st : S)
| Thrown (st : S).
Arguments Returned {S} st.
Arguments Thrown {S} st.

(** What becomes of a component once the updates a handler queued are
    applied: it is rendered with its new state, or, when a queued updater
    throws during that render, it is gone. *)
Inductive aftermath (S : Type) : Type :=
| Survives (st : S)
| Crashes.
Arguments Survives {S} st.
Arguments Crashes {S}.

(** How an awaited request ends; [Resolved None] is a [null] body. *)
Inductive settled (R : Type) : Type :=
| Rejected
| Resolved (data : option R).
Arguments Rejected {R}.
Arguments Resolved {R} data.

End JS.

(** ** GameView.jsx *)
Module GameView.
Import JS.

(** A question as received from [/game/{id}/questions]; a field that may be
    missing is an [option]. *)
Record Question := {
  q_type : string;
  q_question : string;
  q_options : option (list string);
  q_correct : option string;
  q_difficulty : option string;
  q_explanation : option string
}.

(** The body of a [/game/grade] response. *)
Record GradingResult := {
  gr_score : option Z;
  gr_feedback : string;
  gr_xp_earned : option Z
}.

(** The arguments of [gradeAnswer]. *)
Record GradeRequest := {
  rq_question : string;
  rq_correct : option string;
  rq_userAnswer : string;
  rq_difficulty : option string
}.

(** The [useState] cells of the component. *)
Record State := {
  questions : list Question;
  loading : bool;
  error : option string;
  currentQ : nat;
  selectedAnswer : option string;
  showResult : bool;
  isCorrect : bool;
  openAnswer : string;
  grading : bool;
  gradeFeedback : option GradingResult;
  score : Z;
  xp : Z;
  gameComplete : bool
}.

Definition initial : State :=
  {| questions := []; loading := true; error := None; currentQ := 0%nat;
     selectedAnswer := None; showResult := false; isCorrect := false;
     openAnswer := ""; grading := false; gradeFeedback := None;
     score := 0; xp := 0; gameComplete := false |}.

Definition setQuestions (v : list Question) (st : State) : State :=
  {| questions := v; loading := loading st; error := error st;
     currentQ := currentQ st; selectedAnswer := selectedAnswer st;
     showResult := showResult st; isCorrect := isCorrect st;
     openAnswer := openAnswer st; grading := grading st;
     gradeFeedback := gradeFeedback st; score := score st; xp := xp st;
     gameComplete := gameComplete st |}.

Definition setLoading (v : bool) (st : State) : State :=
  {| questions := questions st; loading := v; error := error st;
     currentQ := currentQ st; selectedAnswer := selectedAnswer st;
     showResult := showResult st; isCorrect := isCorrect st;
     openAnswer := openAnswer st; grading := grading st;
     gradeFeedback := gradeFeedback st; score := score st; xp := xp st;
     gameComplete := gameComplete st |}.

Definition setError (v : option string) (st : State) : State :=
  {| questions := questions st; loading := loading st; error := v;
     currentQ := currentQ st; selectedAnswer := selectedAnswer st;
     showResult := showResult st; isCorrect := isCorrect st;
     openAnswer := openAnswer st; grading := grading st;
     gradeFeedback := gradeFeedback st; score := score st; xp := xp st;
     gameComplete := gameComplete st |}.

Definition setCurrentQ (f : nat -> nat) (st : State) : State :=
  {| questions := questions st; loading := loading st; error := error st;
     currentQ := f (currentQ st); selectedAnswer := selectedAnswer st;
     showResult := showResult st; isCorrect := isCorrect st;
     openAnswer := openAnswer st; grading := grading st;
     gradeFeedback := gradeFeedback st; score := score st; xp := xp st;
     gameComplete := gameComplete st |}.

Definition setSelectedAnswer (v : option string) (st : State) : State :=
  {| questions := questions st; loading := loading st; error := error st;
     currentQ := currentQ st; selectedAnswer := v;
     showResult := showResult st; isCorrect := isCorrect st;
     openAnswer := openAnswer st; grading := grading st;
     gradeFeedback := gradeFeedback st; score := score st; xp := xp st;
     gameComplete := gameComplete st |}.

Definition setShowResult (v : bool) (st : State) : State :=
  {| questions := questions st; loading := loading st; error := error st;
     currentQ := currentQ st; selectedAnswer := selectedAnswer st;
     showResult := v; isCorrect := isCorrect st;
     openAnswer := openAnswer st; grading := grading st;
     gradeFeedback := gradeFeedback st; score := score st; xp := xp st;
     gameComplete := gameComplete st |}.

Definition setIsCorrect (v : bool) (st : State) : State :=
  {| questions := questions st; loading := loading st; error := error st;
     currentQ := currentQ st; selectedAnswer := selectedAnswer st;
     showResult := showResult st; isCorrect := v;
     openAnswer := openAnswer st; grading := grading st;
     gradeFeedback := gradeFeedback st; score := score st; xp := xp st;
     gameComplete := gameComplete st |}.

Definition setOpenAnswer (v : string) (st : State) : State :=
  {| questions := questions st; loading := loading st; error := error st;
     currentQ := currentQ st; selectedAnswer := selectedAnswer st;
     showResult := showResult st; isCorrect := isCorrect st;
     openAnswer := v; grading := grading st;
     gradeFeedback := gradeFeedback st; score := score st; xp := xp st;
     gameComplete := gameComplete st |}.

Definition setGrading (v : bool) (st : State) : State :=
  {| questions := questions st; loading := loading st; error := error st;
     currentQ := currentQ st; selectedAnswer := selectedAnswer st;
     showResult := showResult st; isCorrect := isCorrect st;
     openAnswer := openAnswer st; grading := v;
     gradeFeedback := gradeFeedback st; score := score st; xp := xp st;
     gameComplete := gameComplete st |}.

Definition setGradeFeedback (v : option GradingResult) (st : State) : State :=
  {| questions := questions st; loading := loading st; error := error st;
     currentQ := currentQ st; selectedAnswer := selectedAnswer st;
     showResult := showResult st; isCorrect := isCorrect st;
     openAnswer := openAnswer st; grading := grading st;
     gradeFeedback := v; score := score st; xp := xp st;
     gameComplete := gameComplete st |}.

Definition setScore (f : Z -> Z) (st : State) : State :=
  {| questions := questions st; loading := loading st; error := error st;
     currentQ := currentQ st; selectedAnswer := selectedAnswer st;
     showResult := showResult st; isCorrect := isCorrect st;
     openAnswer := openAnswer st; grading := grading st;
     gradeFeedback := gradeFeedback st; score := f (score st); xp := xp st;
     gameComplete := gameComplete st |}.

Definition setXp (f : Z -> Z) (st : State) : State :=
  {| questions := questions st; loading := loading st; error := error st;
     currentQ := currentQ st; selectedAnswer := selectedAnswer st;
     showResult := showResult st; isCorrect := isCorrect st;
     openAnswer := openAnswer st; grading := grading st;
     gradeFeedback := gradeFeedback st; score := score st; xp := f (xp st);
     gameComplete := gameComplete st |}.

Definition setGameComplete (v : bool) (st : State) : State :=
  {| questions := questions st; loading := loading st; error := error st;
     currentQ := currentQ st; selectedAnswer := selectedAnswer st;
     showResult := showResult st; isCorrect := isCorrect st;
     openAnswer := openAnswer st; grading := grading st;
     gradeFeedback := gradeFeedback st; score := score st; xp := xp st;
     gameComplete := v |}.

(** [st |> f |> g] runs the setter call [f], then [g]. *)
Notation "st |> f" := (f st) (at level 45, left associativity, only parsing).

(** [const currentQuestion = questions[currentQ]] *)
Definition currentQuestion (st : State) : option Question :=
  nth_error (questions st) (currentQ st).

(** [d === 'easy'] *)
Definition isEasy (d : option string) : bool :=
  match d with
  | Some s => (s =? "easy")%string
  | None => false
  end.

Section Handlers.

(** [String.prototype.toUpperCase]; the development holds for every case
    mapping. *)
Variable toUpperCase : string -> string.

(** [currentQuestion.correct?.charAt(0)?.toUpperCase() === letter] *)
Definition matchesCorrect (q : Question) (letter : string) : bool :=
  match q_correct q with
  | Some c => (toUpperCase (charAt c 0) =? letter)%string
  | None => false
  end.

Definition handleMCQSelect (st : State) (option : string)
  : completion State :=
  if showResult st then Returned st
  else
    let st1 := st |> setSelectedAnswer (Some option) in
    match currentQuestion st with
    | None => Thrown st1
    | Some q =>
        let letter := toUpperCase (charAt option 0) in
        let correct := matchesCorrect q letter in
        let st2 := st1 |> setIsCorrect correct |> setShowResult true in
        if correct then
          let points := if isEasy (q_difficulty q) then 10 else 20 in
          Returned (st2 |> setScore (fun prev => prev + 1)
                        |> setXp (fun prev => prev + points))
        else Returned st2
    end.

(** The verdict of a selection: the [const correct] of [handleMCQSelect]. *)
Definition verdict (q : Question) (option : string) : bool :=
  matchesCorrect q (toUpperCase (charAt option 0)).

(** The XP a verdict is worth on a question: [points] when correct. *)
Definition award (q : Question) (correct : bool) : Z :=
  if correct then if isEasy (q_difficulty q) then 10 else 20 else 0.

(** The state a handler leaves, whether it returned or threw. *)
Definition stateOf (c : completion State) : State :=
  match c with
  | Returned st => st
  | Thrown st => st
  end.

(** Clicking the options [opts] one after the other. *)
Definition selectAll (st : State) (opts : list string) : State :=
  fold_left (fun s o => stateOf (handleMCQSelect s o)) opts st.

End Handlers.

(** The payload the [catch] block of [handleOpenSubmit] stores. *)
Definition gradingError : GradingResult :=
  {| gr_score := Some 0; gr_feedback := "Error grading answer.";
     gr_xp_earned := Some 0 |}.

(** The [catch] block of [handleOpenSubmit]. *)
Definition handleOpenSubmit_catch (st : State) : State :=
  st |> setGradeFeedback (Some gradingError) |> setShowResult true.

(** [handleOpenSubmit] up to its [await]: the guard, [setGrading(true)] and
    the arguments of [gradeAnswer].  Reading a field of a missing
    [currentQuestion] throws inside the [try], so that case runs the [catch]
    and [finally] blocks at once and sends nothing. *)
Definition handleOpenSubmit_begin (st : State) : State * option GradeRequest :=
  if negb (truthy (trim (openAnswer st))) || grading st then (st, None)
  else
    let st1 := st |> setGrading true in
    match currentQuestion st with
    | None => (st1 |> handleOpenSubmit_catch |> setGrading false, None)
    | Some q =>
        (st1, Some {| rq_question := q_question q;
                      rq_correct := q_correct q;
                      rq_userAnswer := openAnswer st;
                      rq_difficulty := q_difficulty q |})
    end.

(** [handleOpenSubmit] from the point where the awaited [gradeAnswer] has
    settled, up to the render that follows.  With a [null] body the updater
    given to [setXp] is queued before [result.score] throws; the [catch] and
    [finally] blocks run, and the next render, applying the queued updater,
    reads [result.xp_earned] of [null] and throws: the component does not
    survive. *)
Definition handleOpenSubmit_settle (o : settled GradingResult) (st : State)
  : aftermath State :=
  match o with
  | Resolved (Some result) =>
      let st2 := st |> setGradeFeedback (Some result)
                    |> setShowResult true
                    |> setXp (fun prev =>
                                prev + orNumber (gr_xp_earned result) 0) in
      let st3 := if geNumber (gr_score result) 2
                 then st2 |> setScore (fun prev => prev + 1)
                 else st2 in
      Survives (st3 |> setGrading false)
  | Resolved None => Crashes
  | Rejected => Survives (st |> handleOpenSubmit_catch |> setGrading false)
  end.

(** A whole run of [handleOpenSubmit] against a grading service, with no
    other event in between: what becomes of the component and the calls
    made. *)
Definition handleOpenSubmit (gradeAnswer : GradeRequest -> settled GradingResult)
  (st : State) : aftermath State * list GradeRequest :=
  match handleOpenSubmit_begin st with
  | (st1, Some rq) => (handleOpenSubmit_settle (gradeAnswer rq) st1, [rq])
  | (st1, None) => (Survives st1, [])
  end.

Definition handleNext (st : State) : State :=
  if (List.length (questions st) <=? currentQ st + 1)%nat then
    st |> setGameComplete true
  else
    st |> setCurrentQ (fun prev => (prev + 1)%nat)
       |> setSelectedAnswer None
       |> setShowResult false
       |> setIsCorrect false
       |> setOpenAnswer ""
       |> setGradeFeedback None.

(** The body of a [/game/{id}/questions] response; [None] is a [questions]
    field that is missing or is not an array. *)
Record QuestionsResponse := {
  qr_questions : option (list Question)
}.

(** [fetchQuestions] from the point where [getQuestions] has settled. *)
Definition fetchQuestions_settle (o : settled QuestionsResponse) (st : State)
  : State :=
  let st1 :=
    match o with
    | Resolved (Some {| qr_questions := Some qs |}) => st |> setQuestions qs
    | Resolved _ =>
        st |> setError (Some "Failed to load questions. Unexpected format.")
    | Rejected =>
        st |> setError (Some "Failed to load quiz questions. Try again later.")
    end in
  st1 |> setLoading false.

(** Which handlers the rendered quiz card lets the user reach. *)
Definition mcqBranch (q : Question) : bool :=
  (q_type q =? "mcq")%string &&
  match q_options q with
  | Some (_ :: _) => true
  | _ => false
  end.

End GameView.

(** ** A quiz session: the events the rendered quiz lets happen *)
Module QuizSession.
Import JS GameView.

Inductive Event :=
| QuestionsSettled (o : settled QuestionsResponse)
| SelectOption (option : string)
| TypeAnswer (text : string)
| SubmitAnswer
| GradeSettled (o : settled GradingResult)
| Next.

(** The component's state as last rendered, whether a grading request is in
    flight, and whether the component has crashed while rendering. *)
Record Session := {
  view : State;
  pending : bool;
  crashed : bool
}.

Definition start : Session :=
  {| view := initial; pending := false; crashed := false |}.

(** [if (error)] *)
Definition hasError (st : State) : bool :=
  match error st with
  | Some msg => truthy msg
  | None => false
  end.

(** The question card is what the component returns when it is neither
    loading, nor in error, nor complete; it reads fields of
    [currentQuestion], which therefore is defined whenever the card is on
    screen. *)
Definition cardQuestion (st : State) : option Question :=
  if loading st || hasError st || gameComplete st then None
  else currentQuestion st.

Section Step.
Variable toUpperCase : string -> string.

(** One event of a component that is on screen; [None] when the screen
    offers no control for it: option buttons exist in the multiple-choice
    branch and are disabled once the result is shown, the text area and the
    submit button belong to the other branch, the submit button is rendered
    until the result is shown and is disabled for a blank answer or while
    grading, and the next button is rendered with the result. *)
Definition stepOnScreen (s : Session) (e : Event) : option Session :=
  let st := view s in
  match e with
  | QuestionsSettled o =>
      if loading st
      then Some {| view := fetchQuestions_settle o st; pending := pending s;
                   crashed := false |}
      else None
  | GradeSettled o =>
      if pending s
      then match handleOpenSubmit_settle o st with
           | Survives st1 =>
               Some {| view := st1; pending := false; crashed := false |}
           | Crashes =>
               Some {| view := st; pending := false; crashed := true |}
           end
      else None
  | SelectOption option =>
      match cardQuestion st with
      | Some q =>
          if mcqBranch q && negb (showResult st)
          then Some {| view := stateOf (handleMCQSelect toUpperCase st option);
                       pending := pending s; crashed := false |}
          else None
      | None => None
      end
  | TypeAnswer text =>
      match cardQuestion st with
      | Some q =>
          if negb (mcqBranch q) && negb (showResult st)
          then Some {| view := setOpenAnswer text st; pending := pending s;
                       crashed := false |}
          else None
      | None => None
      end
  | SubmitAnswer =>
      match cardQuestion st with
      | Some q =>
          if negb (mcqBranch q) && negb (showResult st)
             && negb (negb (truthy (trim (openAnswer st))) || grading st)
          then
            match handleOpenSubmit_begin st with
            | (st1, Some _) =>
                Some {| view := st1; pending := true; crashed := false |}
            | (st1, None) =>
                Some {| view := st1; pending := pending s; crashed := false |}
            end
          else None
      | None => None
      end
  | Next =>
      match cardQuestion st with
      | Some _ =>
          if showResult st
          then Some {| view := handleNext st; pending := pending s;
                       crashed := false |}
          else None
      | None => None
      end
  end.

(** One event; a crashed component offers nothing any more. *)
Definition step (s : Session) (e : Event) : option Session :=
  if crashed s then None else stepOnScreen s e.

(** A run of events; an event the screen does not offer is skipped. *)
Fixpoint run (s : Session) (es : list Event) : Session :=
  match es with
  | [] => s
  | e :: rest =>
      match step s e with
      | Some s1 => run s1 rest
      | None => run s rest
      end
  end.

(** Whether a step changed the count of correct answers or the XP. *)
Definition contributed (s s1 : Session) : bool :=
  negb (score (view s1) =? score (view s))
  || negb (xp (view s1) =? xp (view s)).

(** The questions, by index and in order, on which an event of the run
    changed the count of correct answers or the XP. *)
Fixpoint contributions (s : Session) (es : list Event) : list nat :=
  match es with
  | [] => []
  | e :: rest =>
      match step s e with
      | Some s1 =>
          if contributed s s1
          then currentQ (view s) :: contributions s1 rest
          else contributions s1 rest
      | None => contributions s rest
      end
  end.

End Step.

(** How far the quiz has come: the index of the current question, plus one
    once its result is shown. *)
Definition stage (s : Session) : nat :=
  (currentQ (view s) + (if showResult (view s) then 1 else 0))%nat.

(** An event that delivers no question of the open kind. *)
Definition deliversOnlyChoices (e : Event) : bool :=
  match e with
  | QuestionsSettled (Resolved (Some {| qr_questions := Some qs |})) =>
      forallb mcqBranch qs
  | _ => true
  end.

(** What holds of every session: the score counts at most the questions
    before the current one, plus the current one once its result is shown;
    a grading request is in flight only for an open question whose result is
    not shown yet, on a component that has not crashed; and a completed quiz
    has not crashed and has at most one point per question. *)
Definition Inv (s : Session) : Prop :=
  let st := view s in
  score st <= Z.of_nat (currentQ st) + (if showResult st then 1 else 0) /\
  (pending s = true ->
   showResult st = false /\ loading st = false /\ grading st = true /\
   gameComplete st = false /\ crashed s = false /\
   exists q, currentQuestion st = Some q /\ mcqBranch q = false) /\
  (gameComplete st = true ->
   loading st = false /\ crashed s = false /\
   score st <= Z.of_nat (List.length (questions st))).

(** What holds while only multiple-choice questions have been delivered. *)
Definition ChoiceInv (s : Session) : Prop :=
  forallb mcqBranch (questions (view s)) = true /\
  pending s = false /\
  10 * score (view s) <= xp (view s) <= 20 * score (view s).

End QuizSession.

(** ** The chat view *)
Module ChatInterface.
Import JS.

(** A citation of a [/chat] response. *)
Record Source := {
  src_text : string;
  src_start_time : option Q
}.

(** An element of [messages]; only assistant replies carry [sources]. *)
Record Message := {
  role : string;
  content : string;
  sources : option (list Source)
}.

(** An element of the request's [history]: [{ role, content }]. *)
Record ChatTurn := {
  turn_role : string;
  turn_content : string
}.

(** The arguments of [sendChat]. *)
Record ChatRequest := {
  rq_videoId : string;
  rq_message : string;
  rq_history : list ChatTurn
}.

(** The body of a [/chat] response. *)
Record ChatResponse := {
  answer : string;
  resp_sources : option (list Source)
}.

Record State := {
  messages : list Message;
  input : string;
  loading : bool;
  currentSources : list Source
}.

Definition initial : State :=
  {| messages :=
       [ {| role := "assistant";
            content := "Hi! I've analyzed this video. Ask me anything about it!";
            sources := None |} ];
     input := ""; loading := false; currentSources := [] |}.

Definition setMessages (f : list Message -> list Message) (st : State) : State :=
  {| messages := f (messages st); input := input st; loading := loading st;
     currentSources := currentSources st |}.

Definition setInput (v : string) (st : State) : State :=
  {| messages := messages st; input := v; loading := loading st;
     currentSources := currentSources st |}.

Definition setLoading (v : bool) (st : State) : State :=
  {| messages := messages st; input := input st; loading := v;
     currentSources := currentSources st |}.

Definition setCurrentSources (v : list Source) (st : State) : State :=
  {| messages := messages st; input := input st; loading := loading st;
     currentSources := v |}.

Notation "st |> f" := (f st) (at level 45, left associativity, only parsing).

(** [m => ({ role: m.role, content: m.content })] *)
Definition toTurn (m : Message) : ChatTurn :=
  {| turn_role := role m; turn_content := content m |}.

(** [messages.slice(-6).map(m => ({ role: m.role, content: m.content }))] *)
Definition buildHistory (msgs : list Message) : list ChatTurn :=
  map toTurn (slice msgs (-6)).

(** [handleSend] up to its [await].  [messages] and [input] are the values
    the handler closed over, that is, those of the state it was called in. *)
Definition handleSend_begin (videoId : string) (st : State)
  : State * option ChatRequest :=
  if negb (truthy (trim (input st))) || loading st then (st, None)
  else
    let userMsg := {| role := "user"; content := input st; sources := None |} in
    let st1 := st |> setMessages (fun prev => (prev ++ [userMsg])%list)
                  |> setInput ""
                  |> setLoading true
                  |> setCurrentSources [] in
    let history := buildHistory (messages st) in
    (st1, Some {| rq_videoId := videoId; rq_message := input st;
                  rq_history := history |}).

(** The message the [catch] block of [handleSend] appends. *)
Definition apology : Message :=
  {| role := "assistant";
     content := "Sorry, I encountered an error. Please try again.";
     sources := None |}.

(** The [catch] block of [handleSend]. *)
Definition handleSend_catch (st : State) : State :=
  st |> setMessages (fun prev => (prev ++ [apology])%list).

(** [handleSend] from the point where [sendChat] has settled.  A [null] body
    throws at [response.answer], before any setter call of the [try] block. *)
Definition handleSend_settle (o : settled ChatResponse) (st : State) : State :=
  let st1 :=
    match o with
    | Resolved (Some response) =>
        let aiMsg := {| role := "assistant"; content := answer response;
                        sources := resp_sources response |} in
        let st2 := st |> setMessages (fun prev => (prev ++ [aiMsg])%list) in
        match resp_sources response with
        | Some srcs => st2 |> setCurrentSources srcs
        | None => st2
        end
    | Resolved None => st |> handleSend_catch
    | Rejected => st |> handleSend_catch
    end in
  st1 |> setLoading false.

(** The assistant message a settled request adds. *)
Definition replyOf (o : settled ChatResponse) : Message :=
  match o with
  | Resolved (Some response) =>
      {| role := "assistant"; content := answer response;
         sources := resp_sources response |}
  | _ => apology
  end.

(** A whole run of [handleSend] against a chat service, with no other event
    in between: the final state and the requests sent. *)
Definition handleSend (sendChat : ChatRequest -> settled ChatResponse)
  (videoId : string) (st : State) : State * list ChatRequest :=
  match handleSend_begin videoId st with
  | (st1, Some rq) => (handleSend_settle (sendChat rq) st1, [rq])
  | (st1, None) => (st1, [])
  end.

Definition formatTime (seconds : Q) : string :=
  let m := Qfloor (seconds / 60%Q) in
  let s := Qfloor (rem seconds 60%Q) in
  toString m ++ ":" ++ padStart (toString s) 2 "0".

End ChatInterface.

(** ** A chat session: the events the chat view lets happen *)
Module ChatSession.
Import JS ChatInterface.

Inductive Event :=
| TypeInput (text : string)
| Submit
| Settled (o : settled ChatResponse).

(** The view's state and whether a chat request is in flight. *)
Record Session := {
  view : State;
  pending : bool
}.

(** The first render, after the effect that copies a given
    [initialMessage] into the input. *)
Definition mount (initialMessage : string) : Session :=
  {| view := if truthy initialMessage
             then setInput initialMessage initial
             else initial;
     pending := false |}.

(** One event; the input field is disabled while loading, a submission
    always reaches [handleSend], and a reply arrives only for a request in
    flight. *)
Definition step (videoId : string) (s : Session) (e : Event)
  : option Session :=
  let st := view s in
  match e with
  | TypeInput text =>
      if loading st then None
      else Some {| view := setInput text st; pending := pending s |}
  | Submit =>
      match handleSend_begin videoId st with
      | (st1, Some _) => Some {| view := st1; pending := true |}
      | (st1, None) => Some {| view := st1; pending := pending s |}
      end
  | Settled o =>
      if pending s
      then Some {| view := handleSend_settle o st; pending := false |}
      else None
  end.

Fixpoint run (videoId : string) (s : Session) (es : list Event) : Session :=
  match es with
  | [] => s
  | e :: rest =>
      match step videoId s e with
      | Some s1 => run videoId s1 rest
      | None => run videoId s rest
      end
  end.

(** The speaker expected at a position: the assistant or the user. *)
Definition speaker (assistant : bool) : string :=
  if assistant then "assistant" else "user".

(** The messages are spoken in turns, the first one by [speaker first]. *)
Fixpoint alternates (first : bool) (msgs : list Message) : bool :=
  match msgs with
  | [] => true
  | m :: rest =>
      (role m =? speaker first)%string && alternates (negb first) rest
  end.

(** What holds of every chat session: the messages are spoken in turns from
    the assistant's greeting on, and a request is in flight, and the view
    loading, exactly when the last message is the user's. *)
Definition ChatInv (s : Session) : Prop :=
  alternates true (messages (view s)) = true /\
  Nat.odd (List.length (messages (view s))) = negb (pending s) /\
  loading (view s) = pending s.

End ChatSession.

(** ** SummaryView.jsx *)
Module SummaryView.
Import JS.

Record DeepConcept := {
  name : string;
  explanation : string;
  start_time : Q
}.

(** The body of a [/video/{id}/summary] response; [None] is a field that is
    missing or, for the two lists, is not an array. *)
Record SummaryResponse := {
  r_overview : option string;
  r_deep_concepts : option (list DeepConcept);
  r_actionable_takeaways : option (list string)
}.

(** [safeSummary] *)
Record Summary := {
  overview : string;
  deep_concepts : list DeepConcept;
  actionable_takeaways : list string
}.

Record State := {
  activeTab : string;
  summaryData : option Summary;
  loading : bool;
  error : option string;
  copied : bool
}.

Definition initial : State :=
  {| activeTab := "overview"; summaryData := None; loading := true;
     error := None; copied := false |}.

Definition setSummaryData (v : option Summary) (st : State) : State :=
  {| activeTab := activeTab st; summaryData := v; loading := loading st;
     error := error st; copied := copied st |}.

Definition setLoading (v : bool) (st : State) : State :=
  {| activeTab := activeTab st; summaryData := summaryData st; loading := v;
     error := error st; copied := copied st |}.

Definition setError (v : option string) (st : State) : State :=
  {| activeTab := activeTab st; summaryData := summaryData st;
     loading := loading st; error := v; copied := copied st |}.

Notation "st |> f" := (f st) (at level 45, left associativity, only parsing).

(** [x || d] where [x] is a string or absent. *)
Definition orString (x : option string) (d : string) : string :=
  match x with
  | Some s => if truthy s then s else d
  | None => d
  end.

(** [Array.isArray(x) ? x : []] *)
Definition arrayOrEmpty {A : Type} (x : option (list A)) : list A :=
  match x with
  | Some l => l
  | None => []
  end.

(** The [safeSummary] object built from the response body [data]. *)
Definition safeSummary (data : option SummaryResponse) : Summary :=
  {| overview :=
       orString (match data with Some d => r_overview d | None => None end)
                "No overview available.";
     deep_concepts :=
       arrayOrEmpty (match data with
                     | Some d => r_deep_concepts d
                     | None => None
                     end);
     actionable_takeaways :=
       arrayOrEmpty (match data with
                     | Some d => r_actionable_takeaways d
                     | None => None
                     end) |}.

(** [fetchSummary] from the point where [getSummary] has settled. *)
Definition fetchSummary_settle (o : settled SummaryResponse) (st : State)
  : State :=
  let st1 :=
    match o with
    | Resolved data => st |> setSummaryData (Some (safeSummary data))
    | Rejected =>
        st |> setError
          (Some "Failed to load summary. The video might not be fully processed yet.")
    end in
  st1 |> setLoading false.

(** What the component renders once loading is over: the error panel when
    [error] is set, the summary otherwise. *)
Inductive Rendered :=
| Skeleton
| ErrorPanel (msg : string)
| SummaryPanel (s : option Summary).

Definition render (st : State) : Rendered :=
  if loading st then Skeleton
  else match error st with
       | Some msg => if truthy msg then ErrorPanel msg
                     else SummaryPanel (summaryData st)
       | None => SummaryPanel (summaryData st)
       end.

Definition formatTime (seconds : Q) : string :=
  let m := Qfloor (seconds / 60%Q) in
  let s := Qfloor (rem seconds 60%Q) in
  toString m ++ ":" ++ padStart (toString s) 2 "0".

End SummaryView.

(** ** GameView.jsx: what the quiz puts on screen *)
Module GameScreen.
Import JS GameView.

(** [const level] of the results screen. *)
Definition level (xp : Z) : string :=
  if 300 <=? xp then "Master"
  else if 150 <=? xp then "Analyst"
  else if 50 <=? xp then "Thinker"
  else "Listener".

(** The levels in order, lowest first. *)
Definition levelRank (lvl : string) : nat :=
  if (lvl =? "Master")%string then 3
  else if (lvl =? "Analyst")%string then 2
  else if (lvl =? "Thinker")%string then 1
  else 0.

(** The four looks of an option button. *)
Definition optIdle : string :=
  "bg-white/5 border-white/10 hover:bg-white/10 hover:border-game-purple/50".
Definition optGreen : string :=
  "bg-green-500/20 border-green-500/50 text-green-300".
Definition optRed : string :=
  "bg-red-500/20 border-red-500/50 text-red-300".
Definition optDimmed : string :=
  "bg-white/5 border-white/5 opacity-50".

(** What the component returns.  The results screen is kept by the level it
    names; the question card reads fields of [currentQuestion] and so throws
    when there is none. *)
Inductive Screen :=
| LoadingScreen
| ErrorScreen (msg : string)
| ResultsScreen (lvl : string)
| QuestionCard (q : Question)
| RenderThrows.

Definition render (st : State) : Screen :=
  if loading st then LoadingScreen
  else
    match error st with
    | Some msg =>
        if truthy msg then ErrorScreen msg
        else if gameComplete st then ResultsScreen (level (xp st))
        else match currentQuestion st with
             | Some q => QuestionCard q
             | None => RenderThrows
             end
    | None =>
        if gameComplete st then ResultsScreen (level (xp st))
        else match currentQuestion st with
             | Some q => QuestionCard q
             | None => RenderThrows
             end
    end.

Section Options.
Variable toUpperCase : string -> string.

(** [selectedAnswer === opt] *)
Definition isSelected (st : State) (opt : string) : bool :=
  match selectedAnswer st with
  | Some a => (a =? opt)%string
  | None => false
  end.

(** [optClass] of the option [opt] of the question [q] on the card. *)
Definition optClass (q : Question) (st : State) (opt : string) : string :=
  let letter := toUpperCase (charAt opt 0) in
  if showResult st then
    if matchesCorrect toUpperCase q letter then optGreen
    else if isSelected st opt then optRed
    else optDimmed
  else optIdle.

End Options.

End GameScreen.

(** ** VideoCard.jsx *)
Module VideoCard.
Import JS.

(** [formatDuration] of a duration in whole seconds.  On whole numbers
    [Math.floor (a / b)] is the floor division and [a % b] the remainder
    with the sign of [a]. *)
Definition formatDuration (seconds : Z) : string :=
  let h := seconds / 3600 in
  let m := Z.rem seconds 3600 / 60 in
  let s := Z.rem seconds 60 in
  if 0 <? h
  then toString h ++ ":" ++ padStart (toString m) 2 "0"
                  ++ ":" ++ padStart (toString s) 2 "0"
  else toString m ++ ":" ++ padStart (toString s) 2 "0".

End VideoCard.

(** ** VideoContext.jsx *)
Module VideoContext.
Import JS.

(** The body of a [/video/process] response, as the views read it. *)
Record VideoData := {
  video_id : string;
  title : string;
  channel : string;
  thumbnail_url : string;
  duration_seconds : Z
}.

(** The [useState] cells of [VideoProvider]. *)
Record State := {
  view : string;
  videoData : option VideoData;
  error : option string;
  loading : bool;
  initialChatMessage : string
}.

Definition initial : State :=
  {| view := "home"; videoData := None; error := None; loading := false;
     initialChatMessage := "" |}.

Definition setView (v : string) (st : State) : State :=
  {| view := v; videoData := videoData st; error := error st;
     loading := loading st; initialChatMessage := initialChatMessage st |}.

Definition setVideoData (v : option VideoData) (st : State) : State :=
  {| view := view st; videoData := v; error := error st;
     loading := loading st; initialChatMessage := initialChatMessage st |}.

Definition setError (v : option string) (st : State) : State :=
  {| view := view st; videoData := videoData st; error := v;
     loading := loading st; initialChatMessage := initialChatMessage st |}.

Definition setInitialChatMessage (v : string) (st : State) : State :=
  {| view := view st; videoData := videoData st; error := error st;
     loading := loading st; initialChatMessage := v |}.

Notation "st |> f" := (f st) (at level 45, left associativity, only parsing).

(** [navigate(newView, payload)]; [initialMessage] is [payload.initialMessage],
    absent by default. *)
Definition navigate (newView : string) (initialMessage : option string)
  (st : State) : State :=
  let st1 :=
    if (newView =? "home")%string
    then st |> setVideoData None |> setError None
    else st in
  let st2 :=
    match initialMessage with
    | Some m =>
        if truthy m then st1 |> setInitialChatMessage m
        else if negb (newView =? "chat")%string
        then st1 |> setInitialChatMessage ""
        else st1
    | None =>
        if negb (newView =? "chat")%string
        then st1 |> setInitialChatMessage ""
        else st1
    end in
  st2 |> setView newView.

(** Navigating through the views [vs] in turn, with no payload. *)
Definition navigateAll (vs : list string) (st : State) : State :=
  fold_left (fun s v => navigate v None s) vs st.

End VideoContext.

(** ** App.jsx *)
Module App.
Import JS VideoContext.

(** [handleMetadataLoaded] and [handleProcessingStart] of [MainContent]. *)
Definition handleMetadataLoaded (data : option VideoData) (st : State)
  : State :=
  st |> setVideoData data |> navigate "video" None.

Definition handleProcessingStart (st : State) : State :=
  st |> setView "processing".

(** What [MainContent] puts inside the layout. *)
Inductive Shown :=
| ShowURLInput
| ShowVideoCard (metadata : VideoData)
| ShowChat (metadata : VideoData) (initialMessage : string)
| ShowSummary (metadata : VideoData)
| ShowGame (metadata : VideoData)
| ShowNothing.

Definition shown (st : State) : Shown :=
  if (view st =? "home")%string || (view st =? "processing")%string
  then ShowURLInput
  else
    match videoData st with
    | Some d =>
        if (view st =? "video")%string then ShowVideoCard d
        else if (view st =? "chat")%string
        then ShowChat d (initialChatMessage st)
        else if (view st =? "summary")%string then ShowSummary d
        else if (view st =? "game")%string then ShowGame d
        else ShowNothing
    | None => ShowNothing
    end.

(** The callbacks and buttons of the screens. *)
Inductive Event :=
| ProcessingStart
| MetadataLoaded (data : option VideoData)
| BackToSearch
| StartChat
| StartSummary
| StartGame
| Back
| GoHome.

(** One event; [None] when the screen shown has no such control. *)
Definition step (st : State) (e : Event) : option State :=
  match shown st, e with
  | ShowURLInput, ProcessingStart => Some (handleProcessingStart st)
  | ShowURLInput, MetadataLoaded data => Some (handleMetadataLoaded data st)
  | ShowVideoCard _, BackToSearch => Some (navigate "home" None st)
  | ShowVideoCard _, StartChat => Some (navigate "chat" None st)
  | ShowVideoCard _, StartSummary => Some (navigate "summary" None st)
  | ShowVideoCard _, StartGame => Some (navigate "game" None st)
  | ShowChat _ _, Back => Some (navigate "video" None st)
  | ShowSummary _, Back => Some (navigate "video" None st)
  | ShowGame _, Back => Some (navigate "video" None st)
  | ShowChat _ _, GoHome => Some (navigate "home" None st)
  | ShowSummary _, GoHome => Some (navigate "home" None st)
  | ShowGame _, GoHome => Some (navigate "home" None st)
  | _, _ => None
  end.

Fixpoint run (st : State) (es : list Event) : State :=
  match es with
  | [] => st
  | e :: rest =>
      match step st e with
      | Some st1 => run st1 rest
      | None => run st rest
      end
  end.

(** An event that hands over no empty response body. *)
Definition carriesData (e : Event) : bool :=
  match e with
  | MetadataLoaded None => false
  | _ => true
  end.

(** The screen is one of those with controls. *)
Definition hasControls (sh : Shown) : bool :=
  match sh with
  | ShowNothing => false
  | _ => true
  end.

(** What holds of the app as long as no response body is empty. *)
Definition AppInv (st : State) : Prop :=
  initialChatMessage st = "" /\
  ((view st = "home" \/ view st = "processing") /\ videoData st = None \/
   (view st = "video" \/ view st = "chat" \/ view st = "summary" \/
    view st = "game") /\ videoData st <> None).

End App.

(** ** URLInput.jsx *)
Module URLInput.
Import JS.

(** What the [catch] block reads of a failed request: [err.code],
    [err.response] with its [data?.detail] and [status], whether
    [err.request] is set, and [err.message]. *)
Record ErrorResponse := {
  er_detail : option string;
  er_status : Z
}.

Record RequestError := {
  err_code : option string;
  err_response : option ErrorResponse;
  err_request : bool;
  err_message : option string
}.

(** How the awaited [axios.post] ends. *)
Inductive Outcome :=
| Failed (err : RequestError)
| Succeeded (data : option VideoContext.VideoData).

(** The calls made on the parent's props. *)
Inductive Callback :=
| OnProcessingStart
| OnMetadataLoaded (data : option VideoContext.VideoData).

Record State := {
  url : string;
  loading : bool;
  error : option string;
  loadingText : string
}.

Definition initial : State :=
  {| url := ""; loading := false; error := None;
     loadingText := "Extracting transcript..." |}.

Definition setUrl (v : string) (st : State) : State :=
  {| url := v; loading := loading st; error := error st;
     loadingText := loadingText st |}.

Definition setLoading (v : bool) (st : State) : State :=
  {| url := url st; loading := v; error := error st;
     loadingText := loadingText st |}.

Definition setError (v : option string) (st : State) : State :=
  {| url := url st; loading := loading st; error := v;
     loadingText := loadingText st |}.

Definition setLoadingText (v : string) (st : State) : State :=
  {| url := url st; loading := loading st; error := error st;
     loadingText := v |}.

Notation "st |> f" := (f st) (at level 45, left associativity, only parsing).

(** The texts shown in turn while a video is processed; they are shown and
    never inspected, and are kept as written in the source file. *)
Definition loadingMessages : list string :=
  [ "🔍 Fetching video info...";
    "📝 Extracting transcript...";
    "🧠 Building knowledge base...";
    "✅ Almost ready..." ].

(** One firing of the interval: the new [msgIndex] and the state. *)
Definition tick (msgIndex : nat) (st : State) : nat * State :=
  let i := ((msgIndex + 1) mod List.length loadingMessages)%nat in
  (i, st |> setLoadingText (nth i loadingMessages "")).

(** [errorMessage] as the [catch] block computes it. *)
Definition errorMessage (err : RequestError) : string :=
  if match err_code err with
     | Some c => (c =? "ECONNABORTED")%string
     | None => false
     end
  then "Request timed out. The video is too long or server is busy."
  else
    match err_response err with
    | Some r =>
        SummaryView.orString (er_detail r)
          ("Server Error (" ++ toString (er_status r) ++ ")")
    | None =>
        if err_request err then "Network Error - Backend unreachable."
        else SummaryView.orString (err_message err) "Unknown Error"
    end.

(** [handleSubmit] up to its [await]: the state, the calls on the parent
    and the URL posted, if any. *)
Definition handleSubmit_begin (st : State)
  : State * list Callback * option string :=
  if negb (truthy (trim (url st))) then (st, [], None)
  else (st |> setLoading true |> setError None,
        [OnProcessingStart], Some (url st)).

(** [handleSubmit] once the request has settled, the half-second timer of
    the success path included. *)
Definition handleSubmit_settle (o : Outcome) (st : State)
  : State * list Callback :=
  match o with
  | Succeeded data =>
      (st |> setLoadingText "✅ Ready to chat!" |> setLoading false,
       [OnMetadataLoaded data])
  | Failed err =>
      (st |> setError (Some (errorMessage err)) |> setLoading false, [])
  end.

End URLInput.

(** ** The home screen: URLInput inside App *)
Module Home.
Import JS.

(** A call on a prop of [URLInput], as [MainContent] wires it. *)
Definition deliver (app : VideoContext.State) (c : URLInput.Callback)
  : VideoContext.State :=
  match c with
  | URLInput.OnProcessingStart => App.handleProcessingStart app
  | URLInput.OnMetadataLoaded data => App.handleMetadataLoaded data app
  end.

(** A whole submission of the form, with no other event in between. *)
Definition submit (o : URLInput.Outcome)
  (ui : URLInput.State) (app : VideoContext.State)
  : URLInput.State * VideoContext.State :=
  match URLInput.handleSubmit_begin ui with
  | (ui1, calls1, Some _) =>
      let app1 := fold_left deliver calls1 app in
      let (ui2, calls2) := URLInput.handleSubmit_settle o ui1 in
      (ui2, fold_left deliver calls2 app1)
  | (ui1, calls1, None) => (ui1, fold_left deliver calls1 app)
  end.

End Home.

(** ** The timestamp format, as the specification words it *)
Module TimestampSpec.

(** The decimal digit [d], for [0 <= d < 10]. *)
Definition digit (d : Z) : ascii := ascii_of_nat (48 + Z.to_nat d).

(** A number below 100 written with exactly two digits. *)
Definition twoDigits (s : Z) : string :=
  String (digit (s / 10)) (String (digit (s mod 10)) "").

(** The text m:ss of a whole number [t] of seconds: the minutes in decimal,
    a colon, and the seconds left over, always with two digits. *)
Definition minutesSeconds (t : Z) : string :=
  JS.toString (t / 60) ++ ":" ++ twoDigits (t mod 60).

End TimestampSpec.

(** ** Sample data for the worked examples *)
Module Samples.
Import JS.

Definition easyQuestion : GameView.Question :=
  {| GameView.q_type := "mcq";
     GameView.q_question := "Which city does the speaker visit first?";
     GameView.q_options := Some ["A. Lyon"; "B. Paris"; "C. Nice"; "D. Lille"];
     GameView.q_correct := Some "B";
     GameView.q_difficulty := Some "easy";
     GameView.q_explanation := Some "Paris is named at the start." |}.

Definition hardQuestion : GameView.Question :=
  {| GameView.q_type := "mcq";
     GameView.q_question := "Which trade-off does the speaker accept?";
     GameView.q_options := Some ["A. Speed"; "B. Cost"; "C. Memory"];
     GameView.q_correct := Some "C";
     GameView.q_difficulty := Some "hard";
     GameView.q_explanation := None |}.

Definition openQuestion : GameView.Question :=
  {| GameView.q_type := "open";
     GameView.q_question := "Why is the index rebuilt?";
     GameView.q_options := None;
     GameView.q_correct := Some "Because the transcript changed.";
     GameView.q_difficulty := Some "medium";
     GameView.q_explanation := None |}.

(** The quiz once its three questions have arrived. *)
Definition quizReady : GameView.State :=
  GameView.fetchQuestions_settle
    (Resolved (Some {| GameView.qr_questions :=
                         Some [easyQuestion; hardQuestion; openQuestion] |}))
    GameView.initial.

(** The quiz on its second and on its third question. *)
Definition quizAtHard : GameView.State :=
  GameView.setCurrentQ (fun _ => 1%nat) quizReady.

Definition quizAtOpen : GameView.State :=
  GameView.setCurrentQ (fun _ => 2%nat) quizReady.

(** The first question answered, its result on screen. *)
Definition quizShown : GameView.State :=
  GameView.setXp (fun _ => 10)
    (GameView.setScore (fun _ => 1)
       (GameView.setShowResult true
          (GameView.setIsCorrect true
             (GameView.setSelectedAnswer (Some "B. Paris") quizReady)))).

(** The open question with a blank answer typed: two spaces, a tab and a
    line feed. *)
Definition blankAnswer : string :=
  String " " (String " " (String (ascii_of_nat 9) (String (ascii_of_nat 10) ""))).

Definition quizBlank : GameView.State :=
  GameView.setOpenAnswer blankAnswer quizAtOpen.

(** The open question while its answer is being graded. *)
Definition quizGrading : GameView.State :=
  GameView.setGrading true
    (GameView.setOpenAnswer "The transcript changed" quizAtOpen).

Definition userSays (text : string) : ChatInterface.Message :=
  {| ChatInterface.role := "user"; ChatInterface.content := text;
     ChatInterface.sources := None |}.

Definition assistantSays (text : string) (cited : list ChatInterface.Source)
  : ChatInterface.Message :=
  {| ChatInterface.role := "assistant"; ChatInterface.content := text;
     ChatInterface.sources := Some cited |}.

(** A conversation of nine messages with a tenth being typed. *)
Definition chatBusy : ChatInterface.State :=
  {| ChatInterface.messages :=
       (ChatInterface.messages ChatInterface.initial ++
        [ userSays "q1";
          assistantSays "a1"
            [ {| ChatInterface.src_text := "intro";
                 ChatInterface.src_start_time := Some (12 # 1) |} ];
          userSays "q2"; assistantSays "a2" [];
          userSays "q3"; assistantSays "a3" [];
          userSays "q4"; assistantSays "a4" [] ])%list;
     ChatInterface.input := "q5";
     ChatInterface.loading := false;
     ChatInterface.currentSources := [] |}.

(** A summary response whose overview is the empty string. *)
Definition emptyOverview : SummaryView.SummaryResponse :=
  {| SummaryView.r_overview := Some "";
     SummaryView.r_deep_concepts := Some [];
     SummaryView.r_actionable_takeaways := Some ["Rewatch the demo"] |}.

(** A whole quiz played: a right and a wrong choice, clicks that come too
    late, a blank and a real open answer. *)
Definition playedQuiz : list QuizSession.Event :=
  [ QuizSession.QuestionsSettled
      (Resolved (Some {| GameView.qr_questions :=
                           Some [easyQuestion; hardQuestion; openQuestion] |}));
    QuizSession.SelectOption "b. Paris";
    QuizSession.SelectOption "A. Lyon";
    QuizSession.Next;
    QuizSession.SelectOption "A. Speed";
    QuizSession.Next;
    QuizSession.SubmitAnswer;
    QuizSession.TypeAnswer "The transcript changed";
    QuizSession.SubmitAnswer;
    QuizSession.SubmitAnswer;
    QuizSession.Next;
    QuizSession.GradeSettled
      (Resolved (Some {| GameView.gr_score := Some 2;
                         GameView.gr_feedback := "Mostly right.";
                         GameView.gr_xp_earned := Some 13 |}));
    QuizSession.SubmitAnswer;
    QuizSession.Next ].

(** A grading service that would give full marks to anything. *)
Definition generousGrader (_ : GameView.GradeRequest)
  : settled GameView.GradingResult :=
  Resolved (Some {| GameView.gr_score := Some 3;
                    GameView.gr_feedback := "Great answer.";
                    GameView.gr_xp_earned := Some 20 |}).

(** The played quiz up to the submission of the open answer. *)
Definition awaitingGrade : list QuizSession.Event :=
  firstn 9 playedQuiz.

(** The same quiz when the grade arrives without a body. *)
Definition gradeWithoutBody : list QuizSession.Event :=
  (awaitingGrade ++
   [ QuizSession.GradeSettled (Resolved None);
     QuizSession.TypeAnswer "Once more";
     QuizSession.Next ])%list.

(** A quiz of the two multiple-choice questions, both answered. *)
Definition choiceQuiz : list QuizSession.Event :=
  [ QuizSession.QuestionsSettled
      (Resolved (Some {| GameView.qr_questions :=
                           Some [easyQuestion; hardQuestion] |}));
    QuizSession.SelectOption "B. Paris";
    QuizSession.Next;
    QuizSession.SelectOption "C. Memory";
    QuizSession.Next ].

(** A chat service that answers everything alike, citing one passage. *)
Definition citingChat (_ : ChatInterface.ChatRequest)
  : settled ChatInterface.ChatResponse :=
  Resolved (Some {| ChatInterface.answer := "a5";
                    ChatInterface.resp_sources :=
                      Some [ {| ChatInterface.src_text := "outro";
                                ChatInterface.src_start_time :=
                                  Some (600 # 1) |} ] |}).

Definition sampleVideo : VideoContext.VideoData :=
  {| VideoContext.video_id := "dQw4w9WgXcQ";
     VideoContext.title := "A talk";
     VideoContext.channel := "A channel";
     VideoContext.thumbnail_url := "https://img.example/t.jpg";
     VideoContext.duration_seconds := 3725 |}.

(** A visit: a video processed, the chat opened and left, the quiz opened,
    and home again. *)
Definition visit : list App.Event :=
  [ App.ProcessingStart; App.MetadataLoaded (Some sampleVideo);
    App.StartChat; App.Back; App.StartGame; App.GoHome ].

Definition typedUrl : URLInput.State :=
  URLInput.setUrl "https://youtu.be/dQw4w9WgXcQ" URLInput.initial.

(** The server refusing a video, with its reason. *)
Definition refused : URLInput.RequestError :=
  {| URLInput.err_code := Some "ERR_BAD_REQUEST";
     URLInput.err_response :=
       Some {| URLInput.er_detail := Some "No transcript available.";
               URLInput.er_status := 400 |};
     URLInput.err_request := true;
     URLInput.err_message := Some "Request failed with status code 400" |}.

End Samples.

(** * Properties *)

(** ** Built-ins *)
Section BuiltIns.
Import JS.

Lemma trimStart_blank (s : string) :
  allWhiteSpace s = true -> trimStart s = "".
Proof.
  induction s as [|c t IH]; simpl; [reflexivity|].
  destruct (isWhiteSpace c); simpl; [exact IH | discriminate].
Qed.

Lemma trimStart_head (s : string) (c : ascii) (t : string) :
  trimStart s = String c t -> isWhiteSpace c = false.
Proof.
  induction s as [|a r IH]; simpl; [discriminate|].
  destruct (isWhiteSpace a) eqn:Ha; [exact IH|].
  intros E. injection E as -> _. exact Ha.
Qed.

Lemma trimStart_empty (s : string) :
  trimStart s = "" -> allWhiteSpace s = true.
Proof.
  induction s as [|c t IH]; simpl; [reflexivity|].
  destruct (isWhiteSpace c); simpl; [exact IH | discriminate].
Qed.

Lemma trimEnd_head (c : ascii) (t : string) :
  isWhiteSpace c = false -> trimEnd (String c t) <> "".
Proof.
  intros Hc. simpl. rewrite Hc. destruct (trimEnd t); discriminate.
Qed.

(** [s.trim()] is empty exactly for the empty and the whitespace-only
    strings. *)
Lemma trim_blank (s : string) :
  trim s = "" <-> allWhiteSpace s = true.
Proof.
  unfold trim. split.
  - intros E. destruct (trimStart s) as [|c t] eqn:Es.
    + now apply trimStart_empty.
    + exfalso. apply (trimEnd_head c t); [|exact E].
      now apply (trimStart_head s c t).
  - intros H. now rewrite (trimStart_blank s H).
Qed.

Lemma blank_not_truthy (s : string) :
  allWhiteSpace s = true -> negb (truthy (trim s)) = true.
Proof.
  intros H. apply trim_blank in H. now rewrite H.
Qed.

End BuiltIns.

(** ** Multiple-choice scoring *)
Section MultipleChoice.
Import JS GameView.

Variable toUpperCase : string -> string.

(** What a selection does while no result is shown yet. *)
Lemma handleMCQSelect_fresh (st : State) (q : Question) (opt : string) :
  showResult st = false ->
  currentQuestion st = Some q ->
  handleMCQSelect toUpperCase st opt =
  Returned
    {| questions := questions st; loading := loading st; error := error st;
       currentQ := currentQ st; selectedAnswer := Some opt;
       showResult := true; isCorrect := verdict toUpperCase q opt;
       openAnswer := openAnswer st; grading := grading st;
       gradeFeedback := gradeFeedback st;
       score := score st + (if verdict toUpperCase q opt then 1 else 0);
       xp := xp st + award q (verdict toUpperCase q opt);
       gameComplete := gameComplete st |}.
Proof.
  intros Hshow Hq. unfold handleMCQSelect, award, verdict.
  rewrite Hshow, Hq.
  destruct (matchesCorrect toUpperCase q (toUpperCase (charAt opt 0)));
    cbn; rewrite ?Z.add_0_r; reflexivity.
Qed.

Lemma isEasy_spec (d : option string) :
  isEasy d = true <-> d = Some "easy".
Proof.
  destruct d as [s|]; simpl.
  - rewrite String.eqb_eq. split; [now intros -> | now intros [= ->]].
  - split; discriminate.
Qed.

Lemma verdict_spec (q : Question) (opt : string) :
  verdict toUpperCase q opt = true <->
  exists c, q_correct q = Some c /\
            toUpperCase (charAt c 0) = toUpperCase (charAt opt 0).
Proof.
  unfold verdict, matchesCorrect.
  destruct (q_correct q) as [c|].
  - rewrite String.eqb_eq. split.
    + intros E. now exists c.
    + now intros (c' & [= <-] & E).
  - split; [discriminate | now intros (c & [=] & _)].
Qed.

(** C1. A selection made while no result is shown is judged correct exactly
    when the question has a [correct] field whose first character, in upper
    case, equals the first character of the selected option in upper case. *)
Theorem mcq_judged_by_leading_letter (st : State) (q : Question) (opt : string) :
  showResult st = false ->
  currentQuestion st = Some q ->
  exists st',
    handleMCQSelect toUpperCase st opt = Returned st' /\
    selectedAnswer st' = Some opt /\
    (isCorrect st' = true <->
     exists c, q_correct q = Some c /\
               toUpperCase (charAt c 0) = toUpperCase (charAt opt 0)).
Proof.
  intros Hshow Hq. eexists.
  split; [exact (handleMCQSelect_fresh st q opt Hshow Hq)|].
  split; [reflexivity|]. cbn. apply verdict_spec.
Qed.

(** C3. A selection whose leading letter matches that of the [correct]
    field is judged correct, adds one to the count of correct answers and
    adds exactly 10 XP on an 'easy' question and exactly 20 XP on any other;
    a selection that does not match is judged incorrect and leaves both the
    XP and the count as they were. *)
Theorem mcq_xp_by_difficulty (st : State) (q : Question) (opt : string) :
  showResult st = false ->
  currentQuestion st = Some q ->
  exists st',
    handleMCQSelect toUpperCase st opt = Returned st' /\
    ((exists c, q_correct q = Some c /\
                toUpperCase (charAt c 0) = toUpperCase (charAt opt 0)) ->
     isCorrect st' = true /\ score st' = score st + 1 /\
     (q_difficulty q = Some "easy" -> xp st' = xp st + 10) /\
     (q_difficulty q <> Some "easy" -> xp st' = xp st + 20)) /\
    (~ (exists c, q_correct q = Some c /\
                  toUpperCase (charAt c 0) = toUpperCase (charAt opt 0)) ->
     isCorrect st' = false /\ score st' = score st /\ xp st' = xp st).
Proof.
  intros Hshow Hq. eexists.
  split; [exact (handleMCQSelect_fresh st q opt Hshow Hq)|].
  cbn [isCorrect score xp]. unfold award. split.
  - intros Hmatch. apply verdict_spec in Hmatch. rewrite Hmatch.
    split; [reflexivity|]. split; [reflexivity|]. split.
    + intros Hd. apply isEasy_spec in Hd. now rewrite Hd.
    + intros Hd. destruct (isEasy (q_difficulty q)) eqn:E; [|reflexivity].
      apply isEasy_spec in E. contradiction.
  - intros Hno.
    destruct (verdict toUpperCase q opt) eqn:Hv.
    + exfalso. apply Hno. now apply verdict_spec.
    + split; [reflexivity|]. split; apply Z.add_0_r.
Qed.

(** C6. Of two selections with the same verdict, one on a 'hard' question and
    one on an 'easy' question, the first earns at least as much XP. *)
Theorem mcq_xp_monotone_in_difficulty
  (stH stE : State) (qH qE : Question) (optH optE : string) :
  showResult stH = false -> currentQuestion stH = Some qH ->
  showResult stE = false -> currentQuestion stE = Some qE ->
  q_difficulty qH = Some "hard" ->
  q_difficulty qE = Some "easy" ->
  exists stH' stE',
    handleMCQSelect toUpperCase stH optH = Returned stH' /\
    handleMCQSelect toUpperCase stE optE = Returned stE' /\
    (isCorrect stH' = isCorrect stE' ->
     xp stH' - xp stH >= xp stE' - xp stE) /\
    (isCorrect stH' = true -> isCorrect stE' = true ->
     xp stH' - xp stH = 20 /\ xp stE' - xp stE = 10).
Proof.
  intros HsH HqH HsE HqE HdH HdE. do 2 eexists.
  split; [exact (handleMCQSelect_fresh stH qH optH HsH HqH)|].
  split; [exact (handleMCQSelect_fresh stE qE optE HsE HqE)|].
  cbn. unfold award. rewrite HdH, HdE. cbn. split.
  - intros ->. destruct (verdict toUpperCase qE optE); lia.
  - intros -> ->. lia.
Qed.

Lemma selectAll_cons (st : State) (o : string) (opts : list string) :
  selectAll toUpperCase st (o :: opts) =
  selectAll toUpperCase (stateOf (handleMCQSelect toUpperCase st o)) opts.
Proof. reflexivity. Qed.

(** With the result on screen a selection returns at once. *)
Lemma handleMCQSelect_shown (st : State) (opt : string) :
  showResult st = true -> handleMCQSelect toUpperCase st opt = Returned st.
Proof.
  intros Hshow. unfold handleMCQSelect. now rewrite Hshow.
Qed.

Lemma selectAll_shown (st : State) (opts : list string) :
  showResult st = true -> selectAll toUpperCase st opts = st.
Proof.
  intros Hshow. induction opts as [|o opts IH]; [reflexivity|].
  now rewrite selectAll_cons, (handleMCQSelect_shown st o Hshow).
Qed.

(** Without a current question a selection throws, having recorded the
    selected answer only. *)
Lemma handleMCQSelect_no_question (st : State) (opt : string) :
  showResult st = false ->
  currentQuestion st = None ->
  handleMCQSelect toUpperCase st opt =
  Thrown (setSelectedAnswer (Some opt) st).
Proof.
  intros Hshow Hq. unfold handleMCQSelect. now rewrite Hshow, Hq.
Qed.

Lemma selectAll_no_question (opts : list string) (st : State) :
  showResult st = false ->
  currentQuestion st = None ->
  score (selectAll toUpperCase st opts) = score st /\
  xp (selectAll toUpperCase st opts) = xp st.
Proof.
  revert st. induction opts as [|o opts IH]; intros st Hshow Hq.
  - now split.
  - rewrite selectAll_cons, (handleMCQSelect_no_question st o Hshow Hq).
    cbn [stateOf].
    apply (IH (setSelectedAnswer (Some o) st)); assumption.
Qed.

(** However often options are clicked on one question, the question adds at
    most one to the score and at most 20 to the XP. *)
Corollary mcq_question_counts_once (st : State) (opts : list string) :
  score st <= score (selectAll toUpperCase st opts) <= score st + 1 /\
  xp st <= xp (selectAll toUpperCase st opts) <= xp st + 20.
Proof.
  destruct opts as [|o opts]; [cbn; lia|].
  destruct (showResult st) eqn:Hshow.
  - rewrite selectAll_shown by exact Hshow. lia.
  - destruct (currentQuestion st) as [q|] eqn:Hq.
    + rewrite selectAll_cons, (handleMCQSelect_fresh st q o Hshow Hq).
      cbn [stateOf].
      rewrite selectAll_shown by reflexivity. cbn [score xp].
      unfold award.
      destruct (verdict toUpperCase q o), (isEasy (q_difficulty q)); lia.
    + destruct (selectAll_no_question (o :: opts) st Hshow Hq) as [-> ->].
      lia.
Qed.

End MultipleChoice.

(** ** Open-ended answers and navigation *)
Section OpenEnded.
Import JS GameView.

(** C7. For an open answer that is empty or consists of whitespace only,
    [handleOpenSubmit] returns at its guard: no grading request is made and
    the state, with its score, XP and feedback, stays as it was, whatever the
    grading service would have answered. *)
Theorem blank_answer_is_never_graded
  (st : State) (gradeAnswer : GradeRequest -> settled GradingResult) :
  allWhiteSpace (openAnswer st) = true ->
  handleOpenSubmit_begin st = (st, None) /\
  handleOpenSubmit gradeAnswer st = (Survives st, []).
Proof.
  intros Hblank.
  assert (Hb : handleOpenSubmit_begin st = (st, None)).
  { unfold handleOpenSubmit_begin.
    now rewrite (blank_not_truthy _ Hblank). }
  split; [exact Hb|].
  unfold handleOpenSubmit. now rewrite Hb.
Qed.

(** A submission is also dropped while an earlier one is being graded. *)
Lemma submit_while_grading_is_dropped (st : State) :
  grading st = true -> handleOpenSubmit_begin st = (st, None).
Proof.
  intros Hg. unfold handleOpenSubmit_begin. rewrite Hg.
  now rewrite orb_true_r.
Qed.

(** C9. [handleNext] on a question that is not the last one moves to the next
    question and resets [selectedAnswer], [showResult], [isCorrect],
    [openAnswer] and [gradeFeedback], every other cell keeping its value; on
    the last question it sets [gameComplete] and changes nothing else. *)
Theorem handleNext_frame (st : State) :
  ((currentQ st + 1 < List.length (questions st))%nat ->
   handleNext st =
   {| questions := questions st; loading := loading st; error := error st;
      currentQ := (currentQ st + 1)%nat; selectedAnswer := None;
      showResult := false; isCorrect := false; openAnswer := "";
      grading := grading st; gradeFeedback := None;
      score := score st; xp := xp st; gameComplete := gameComplete st |}) /\
  ((List.length (questions st) <= currentQ st + 1)%nat ->
   handleNext st =
   {| questions := questions st; loading := loading st; error := error st;
      currentQ := currentQ st; selectedAnswer := selectedAnswer st;
      showResult := showResult st; isCorrect := isCorrect st;
      openAnswer := openAnswer st; grading := grading st;
      gradeFeedback := gradeFeedback st;
      score := score st; xp := xp st; gameComplete := true |}).
Proof.
  unfold handleNext. split; intros Hlen.
  - apply Nat.leb_gt in Hlen. now rewrite Hlen.
  - apply Nat.leb_le in Hlen. now rewrite Hlen.
Qed.

End OpenEnded.

(** ** The score over a whole quiz *)
Section SessionInvariant.
Import JS GameView QuizSession.

Variable toUpperCase : string -> string.

Lemma cardQuestion_Some (st : State) (q : Question) :
  cardQuestion st = Some q ->
  loading st = false /\ gameComplete st = false /\ currentQuestion st = Some q.
Proof.
  unfold cardQuestion.
  destruct (loading st), (hasError st), (gameComplete st); cbn;
    try discriminate.
  intros ->. repeat split.
Qed.

Lemma Inv_start : Inv start.
Proof.
  unfold Inv. cbn. split; [lia|]. split; discriminate.
Qed.

(** The questions request touches the questions, the error and the loading
    flag only. *)
Lemma questions_keep (o : settled QuestionsResponse) (st : State) :
  let st' := fetchQuestions_settle o st in
  score st' = score st /\ xp st' = xp st /\
  currentQ st' = currentQ st /\ showResult st' = showResult st /\
  gameComplete st' = gameComplete st.
Proof.
  unfold fetchQuestions_settle.
  destruct o as [|[[[qs|]]|]]; repeat split.
Qed.

(** What a grade leaves when the component survives it. *)
Lemma settle_survives (o : settled GradingResult) (st st' : State) :
  handleOpenSubmit_settle o st = Survives st' ->
  showResult st' = true /\ grading st' = false /\
  currentQ st' = currentQ st /\ gameComplete st' = gameComplete st /\
  loading st' = loading st /\ questions st' = questions st /\
  score st <= score st' <= score st + 1.
Proof.
  unfold handleOpenSubmit_settle, handleOpenSubmit_catch.
  destruct o as [|[r|]]; [| |discriminate]; intros [= <-].
  - cbn. repeat split; lia.
  - destruct (geNumber (gr_score r) 2); cbn; repeat split; lia.
Qed.

(** A grade without a body is the one the component does not survive. *)
Lemma settle_crashes (o : settled GradingResult) (st : State) :
  handleOpenSubmit_settle o st = Crashes <-> o = Resolved None.
Proof.
  unfold handleOpenSubmit_settle.
  destruct o as [|[r|]]; split; (discriminate || reflexivity).
Qed.

Lemma Inv_idle (s : Session) :
  Inv s -> showResult (view s) = true \/ loading (view s) = true ->
  pending s = false.
Proof.
  intros (_ & Hpend & _) H.
  destruct (pending s); [|reflexivity].
  destruct (Hpend eq_refl) as (Hs & Hl & _).
  destruct H; congruence.
Qed.

Lemma Inv_step (s s' : Session) (e : Event) :
  Inv s -> step toUpperCase s e = Some s' -> Inv s'.
Proof.
  intros HI. pose proof HI as (Hscore & Hpend & Hdone).
  unfold step. destruct (crashed s) eqn:Hc; [discriminate|].
  destruct e as [o|opt|text| |o| ]; cbn [stepOnScreen].
  - (* the questions arrive *)
    destruct (loading (view s)) eqn:Hl; [|discriminate]. intros [= <-].
    assert (Hp : pending s = false) by (apply Inv_idle; auto).
    assert (Hg : gameComplete (view s) = false).
    { destruct (gameComplete (view s)); [|reflexivity].
      destruct (Hdone eq_refl) as (Hl' & _). congruence. }
    destruct (questions_keep o (view s)) as (Hk1 & _ & Hk2 & Hk3 & Hk4).
    cbv zeta in Hk1, Hk2, Hk3, Hk4.
    unfold Inv. cbn [view pending crashed].
    rewrite Hk1, Hk2, Hk3, Hk4, Hp, Hg.
    split; [exact Hscore|]. split; discriminate.
  - (* an option is clicked *)
    destruct (cardQuestion (view s)) as [q|] eqn:Hcard; [|discriminate].
    destruct (cardQuestion_Some _ _ Hcard) as (_ & Hg & Hq).
    destruct (mcqBranch q) eqn:Hm, (showResult (view s)) eqn:Hs;
      cbn; try discriminate.
    intros [= <-].
    assert (Hp : pending s = false).
    { destruct (pending s); [|reflexivity].
      destruct (Hpend eq_refl) as (_ & _ & _ & _ & _ & q' & Hq' & Hopen).
      congruence. }
    rewrite (handleMCQSelect_fresh toUpperCase _ q opt Hs Hq).
    unfold Inv. cbn. rewrite Hp, Hg.
    split; [|split; discriminate].
    destruct (verdict toUpperCase q opt); lia.
  - (* the answer is typed *)
    destruct (cardQuestion (view s)) as [q|]; [|discriminate].
    destruct (negb (mcqBranch q) && negb (showResult (view s)));
      [|discriminate].
    intros [= <-]. unfold Inv. cbn.
    exact (conj Hscore (conj Hpend Hdone)).
  - (* the answer is submitted *)
    destruct (cardQuestion (view s)) as [q|] eqn:Hcard; [|discriminate].
    destruct (cardQuestion_Some _ _ Hcard) as (Hl & Hg & Hq).
    destruct (mcqBranch q) eqn:Hm, (showResult (view s)) eqn:Hs;
      cbn; try discriminate.
    destruct (negb (truthy (trim (openAnswer (view s)))) || grading (view s))
      eqn:Hguard; cbn; [discriminate|].
    unfold handleOpenSubmit_begin. rewrite Hguard, Hq.
    intros [= <-]. unfold Inv. cbn. rewrite Hs, Hg.
    split; [exact Hscore|]. split; [|discriminate].
    intros _. repeat split; try assumption. now exists q.
  - (* the grade arrives *)
    destruct (pending s) eqn:Hp; [|discriminate].
    destruct (Hpend eq_refl) as (Hshow & _ & _ & Hg & _).
    rewrite Hshow in Hscore.
    destruct (handleOpenSubmit_settle o (view s)) as [st1|] eqn:Hset;
      intros [= <-]; unfold Inv; cbn [view pending crashed].
    + destruct (settle_survives o _ _ Hset)
        as (Hs1 & _ & Hq1 & Hg1 & _ & _ & Hsc1).
      rewrite Hs1, Hq1, Hg1, Hg.
      split; [lia|]. split; discriminate.
    + rewrite Hshow, Hg. split; [exact Hscore|]. split; discriminate.
  - (* the next question is asked for *)
    destruct (cardQuestion (view s)) as [q|] eqn:Hcard; [|discriminate].
    destruct (cardQuestion_Some _ _ Hcard) as (Hl & Hg & Hq).
    destruct (showResult (view s)) eqn:Hs; [|discriminate].
    intros [= <-].
    assert (Hp : pending s = false) by (apply Inv_idle; auto).
    assert (Hlt : (currentQ (view s) < List.length (questions (view s)))%nat).
    { apply nth_error_Some. unfold currentQuestion in Hq. congruence. }
    unfold Inv, handleNext. cbn [view pending crashed]. rewrite Hp.
    destruct (List.length (questions (view s)) <=? currentQ (view s) + 1)%nat
      eqn:Hlast; cbn.
    + rewrite Hs. split; [exact Hscore|]. split; [discriminate|].
      intros _. split; [exact Hl|]. split; [reflexivity | lia].
    + rewrite Hg. split; [lia|]. split; discriminate.
Qed.

(** The invariant holds after every run of events from the first render. *)
Lemma Inv_run (es : list Event) (s : Session) :
  Inv s -> Inv (run toUpperCase s es).
Proof.
  revert s. induction es as [|e es IH]; intros s HI; [exact HI|].
  cbn [run]. destruct (step toUpperCase s e) as [s1|] eqn:Hstep.
  - apply IH. exact (Inv_step s s1 e HI Hstep).
  - now apply IH.
Qed.

(** A completed quiz has not crashed and shows a score of at most one point
    per question. *)
Corollary completed_score_bounded (es : list Event) :
  let s := run toUpperCase start es in
  gameComplete (view s) = true ->
  crashed s = false /\
  score (view s) <= Z.of_nat (List.length (questions (view s))).
Proof.
  intros s Hdone.
  destruct (Inv_run es start Inv_start) as (_ & _ & Hc).
  destruct (Hc Hdone) as (_ & Hcr & Hsc). now split.
Qed.

End SessionInvariant.

(** ** Chat history *)
Section ChatHistory.
Import JS ChatInterface.

Lemma slice_negative (A : Type) (a : list A) (start : Z) :
  start < 0 ->
  slice a start = skipn (List.length a - Z.to_nat (- start)) a.
Proof.
  intros Hneg. unfold slice.
  apply Z.ltb_lt in Hneg as Hb. rewrite Hb. f_equal. lia.
Qed.

Lemma buildHistory_skipn (msgs : list Message) :
  buildHistory msgs = map toTurn (skipn (List.length msgs - 6) msgs).
Proof.
  unfold buildHistory. now rewrite slice_negative.
Qed.

Lemma buildHistory_length (msgs : list Message) :
  List.length (buildHistory msgs) = Nat.min 6 (List.length msgs).
Proof.
  rewrite buildHistory_skipn, length_map, length_skipn. lia.
Qed.

(** The history is the tail of the conversation: what precedes it is dropped
    and nothing of it is changed. *)
Lemma buildHistory_suffix (msgs : list Message) :
  map toTurn msgs =
  (map toTurn (firstn (List.length msgs - 6) msgs) ++ buildHistory msgs)%list.
Proof.
  rewrite buildHistory_skipn, <- map_app. now rewrite firstn_skipn.
Qed.

Lemma buildHistory_nth (msgs : list Message) (i : nat) :
  nth_error (buildHistory msgs) i =
  option_map toTurn (nth_error msgs (List.length msgs - 6 + i)).
Proof.
  rewrite buildHistory_skipn, nth_error_map, nth_error_skipn. reflexivity.
Qed.

(** Short conversations are sent whole. *)
Lemma buildHistory_short (msgs : list Message) :
  (List.length msgs <= 6)%nat -> buildHistory msgs = map toTurn msgs.
Proof.
  intros Hlen. rewrite buildHistory_skipn.
  replace (List.length msgs - 6)%nat with 0%nat by lia. reflexivity.
Qed.

(** C2. A send that passes the guard makes one request whose history is
    [buildHistory] of the messages held before the send, a function of that
    list alone: the [role] and [content] of its last six messages, in order
    (all of them when there are fewer), with every older message dropped.
    The message being sent travels apart from the history and joins the
    conversation after it. *)
Theorem chat_history_is_last_six (videoId : string) (st : State) :
  truthy (trim (input st)) = true ->
  loading st = false ->
  exists st1 rq,
    handleSend_begin videoId st = (st1, Some rq) /\
    rq_message rq = input st /\
    messages st1 =
      (messages st ++
       [ {| role := "user"; content := input st; sources := None |} ])%list /\
    rq_history rq = buildHistory (messages st) /\
    List.length (rq_history rq) = Nat.min 6 (List.length (messages st)) /\
    map toTurn (messages st) =
      (map toTurn (firstn (List.length (messages st) - 6) (messages st))
       ++ rq_history rq)%list /\
    forall i,
      nth_error (rq_history rq) i =
      option_map (fun m => {| turn_role := role m; turn_content := content m |})
        (nth_error (messages st) (List.length (messages st) - 6 + i)).
Proof.
  intros Hinput Hload. unfold handleSend_begin. rewrite Hinput, Hload. cbn.
  do 2 eexists. split; [reflexivity|]. cbn.
  do 3 (split; [reflexivity|]).
  split; [apply buildHistory_length|].
  split; [apply buildHistory_suffix|].
  apply buildHistory_nth.
Qed.

(** The request is built from the handler's own arguments and state; two
    views holding the same messages send the same history. *)
Lemma chat_history_depends_on_messages_only
  (v1 v2 : string) (st1 st2 : State) :
  messages st1 = messages st2 ->
  option_map rq_history (snd (handleSend_begin v1 st1)) =
  option_map rq_history (snd (handleSend_begin v2 st2)) \/
  snd (handleSend_begin v1 st1) = None \/
  snd (handleSend_begin v2 st2) = None.
Proof.
  intros Hm. unfold handleSend_begin.
  destruct (negb (truthy (trim (input st1))) || loading st1); cbn;
    [now right; left|].
  destruct (negb (truthy (trim (input st2))) || loading st2); cbn;
    [now right; right|].
  left. now rewrite Hm.
Qed.

End ChatHistory.

(** ** Failed requests *)
Section Failures.
Import JS.

Lemma grading_catch_equals_zero_grade (st : GameView.State) :
  GameView.handleOpenSubmit_settle Rejected st =
  GameView.handleOpenSubmit_settle (Resolved (Some GameView.gradingError)) st.
Proof.
  unfold GameView.handleOpenSubmit_settle, GameView.handleOpenSubmit_catch.
  cbn. unfold GameView.setXp. cbn. now rewrite Z.add_0_r.
Qed.

Lemma chat_catch_equals_apology_answer (st : ChatInterface.State) :
  ChatInterface.handleSend_settle Rejected st =
  ChatInterface.handleSend_settle
    (Resolved (Some {| ChatInterface.answer :=
                         "Sorry, I encountered an error. Please try again.";
                       ChatInterface.resp_sources := None |})) st.
Proof. reflexivity. Qed.

(** C4, as amended.  A failed request is reported where its result would have
    gone.  A failed questions or summary request sets the view's error text
    and stores no payload.  A failed grading call stores the fixed grade
    [gradingError] (score 0, 0 XP, feedback 'Error grading answer.'), shows
    the result and changes neither score nor XP nor the error text.  A failed
    chat call appends the fixed assistant message [apology] and keeps the
    cited sources. *)
Theorem failed_requests_are_reported_in_place :
  (forall st,
     let st' := GameView.fetchQuestions_settle Rejected st in
     GameView.error st' =
       Some "Failed to load quiz questions. Try again later." /\
     GameView.questions st' = GameView.questions st /\
     GameView.loading st' = false) /\
  (forall st,
     let st' := SummaryView.fetchSummary_settle Rejected st in
     SummaryView.error st' =
       Some "Failed to load summary. The video might not be fully processed yet." /\
     SummaryView.summaryData st' = SummaryView.summaryData st /\
     SummaryView.loading st' = false) /\
  (forall st,
     exists st',
       GameView.handleOpenSubmit_settle Rejected st = Survives st' /\
       GameView.gradeFeedback st' = Some GameView.gradingError /\
       GameView.showResult st' = true /\
       GameView.score st' = GameView.score st /\
       GameView.xp st' = GameView.xp st /\
       GameView.error st' = GameView.error st /\
       GameView.grading st' = false) /\
  (forall st,
     let st' := ChatInterface.handleSend_settle Rejected st in
     ChatInterface.messages st' =
       (ChatInterface.messages st ++ [ChatInterface.apology])%list /\
     ChatInterface.currentSources st' = ChatInterface.currentSources st /\
     ChatInterface.loading st' = false).
Proof.
  split; [repeat split|]. split; [repeat split|]. split; [|repeat split].
  intros st. eexists. split; [reflexivity|]. repeat split.
Qed.

End Failures.

(** ** Summary defaults *)
Section SummaryDefaults.
Import JS SummaryView.

Lemma orString_truthy (x : option string) (d : string) :
  truthy d = true -> truthy (orString x d) = true.
Proof.
  intros Hd. unfold orString. destruct x as [s|]; [|exact Hd].
  destruct (truthy s) eqn:Hs; [exact Hs | exact Hd].
Qed.

Lemma orString_blank (x : option string) (d : string) :
  x = None \/ x = Some "" -> orString x d = d.
Proof. now intros [-> | ->]. Qed.

(** C5, as amended.  A summary response is always stored and shown as a
    summary, with no error set by it.  An overview that is missing or empty is
    replaced by the text 'No overview available.', so the overview shown is
    never empty, and any other overview is shown as received.  Lists of deep
    concepts and takeaways are shown as received, the empty list included, and
    a missing list counts as empty. *)
Theorem summary_response_is_defaulted
  (data : option SummaryResponse) (st : State) :
  let st' := fetchSummary_settle (Resolved data) st in
  summaryData st' = Some (safeSummary data) /\
  error st' = error st /\
  loading st' = false /\
  truthy (overview (safeSummary data)) = true /\
  (forall d, data = Some d ->
     (r_overview d = None \/ r_overview d = Some "" ->
      overview (safeSummary data) = "No overview available.") /\
     (forall o, r_overview d = Some o -> o <> "" ->
      overview (safeSummary data) = o) /\
     (forall cs, r_deep_concepts d = Some cs ->
      deep_concepts (safeSummary data) = cs) /\
     (forall ts, r_actionable_takeaways d = Some ts ->
      actionable_takeaways (safeSummary data) = ts) /\
     (r_deep_concepts d = None -> deep_concepts (safeSummary data) = []) /\
     (r_actionable_takeaways d = None ->
      actionable_takeaways (safeSummary data) = [])) /\
  (data = None ->
   safeSummary data =
   {| overview := "No overview available."; deep_concepts := [];
      actionable_takeaways := [] |}).
Proof.
  unfold fetchSummary_settle. cbn.
  split; [reflexivity|]. split; [reflexivity|]. split; [reflexivity|].
  split; [now apply orString_truthy|].
  split.
  - intros d ->. unfold safeSummary. cbn.
    split; [apply orString_blank|].
    split.
    { intros o Ho Hne. rewrite Ho. cbn.
      destruct o as [|c t]; [contradiction | reflexivity]. }
    split; [now intros cs ->|].
    split; [now intros ts ->|].
    split; now intros ->.
  - now intros ->.
Qed.

End SummaryDefaults.

(** ** Timestamps *)
Section Timestamps.
Import JS TimestampSpec.

Lemma padStart_table :
  forallb (fun k => (padStart (toString (Z.of_nat k)) 2 "0"
                     =? twoDigits (Z.of_nat k))%string)
          (seq 0 100) = true.
Proof. vm_compute. reflexivity. Qed.

Lemma padStart_twoDigits (s : Z) :
  0 <= s < 100 -> padStart (toString s) 2 "0" = twoDigits s.
Proof.
  intros Hs.
  pose proof (proj1 (forallb_forall _ _) padStart_table (Z.to_nat s)) as H.
  cbv beta in H. rewrite Z2Nat.id in H by lia.
  apply String.eqb_eq, H, in_seq. lia.
Qed.

Lemma Qfloor_minutes (x : Q) :
  Qfloor (x / 60%Q) = Qfloor x / 60.
Proof.
  destruct x as [n d].
  cbv [Qfloor Qdiv Qmult Qinv Qnum Qden].
  rewrite Z.mul_1_r, Pos2Z.inj_mul, <- Z.div_div by lia. reflexivity.
Qed.

Lemma Qfloor_seconds (x : Q) :
  (0 <= x)%Q -> Qfloor (rem x 60%Q) = Qfloor x mod 60.
Proof.
  destruct x as [n d]. unfold Qle. cbn [Qnum Qden]. intros Hn.
  cbv [rem Qtrunc Qfloor Qdiv Qminus Qplus Qopp Qmult Qinv inject_Z Qnum Qden].
  change (1 * 1)%positive with 1%positive.
  rewrite Pos.mul_1_r, !Z.mul_1_r in *.
  rewrite Z.quot_div_nonneg by lia.
  rewrite Pos2Z.inj_mul, <- Z.div_div by lia.
  rewrite Z.div_add by lia.
  rewrite Z.mod_eq by lia. lia.
Qed.

Lemma formatTime_summary_shape (seconds : Q) :
  (0 <= seconds)%Q ->
  SummaryView.formatTime seconds = minutesSeconds (Qfloor seconds).
Proof.
  intros Hpos. unfold SummaryView.formatTime, minutesSeconds.
  rewrite Qfloor_minutes, Qfloor_seconds by exact Hpos.
  rewrite padStart_twoDigits; [reflexivity|].
  pose proof (Z.mod_pos_bound (Qfloor seconds) 60). lia.
Qed.

(** C10. The chat view's and the summary view's [formatTime] return the same
    text for every non-negative number of seconds: the whole minutes in
    decimal, a colon, and the whole seconds left over in two digits. *)
Theorem formatTime_views_agree (seconds : Q) :
  (0 <= seconds)%Q ->
  ChatInterface.formatTime seconds = SummaryView.formatTime seconds /\
  SummaryView.formatTime seconds = minutesSeconds (Qfloor seconds) /\
  0 <= Qfloor seconds mod 60 < 60 /\
  String.length (twoDigits (Qfloor seconds mod 60)) = 2%nat.
Proof.
  intros Hpos.
  split; [reflexivity|].
  split; [now apply formatTime_summary_shape|].
  split; [apply Z.mod_pos_bound; lia | reflexivity].
Qed.

(** The two formatters are the same function, on negative input as well. *)
Lemma formatTime_ext (seconds : Q) :
  ChatInterface.formatTime seconds = SummaryView.formatTime seconds.
Proof. reflexivity. Qed.

End Timestamps.

(** ** The quiz on screen *)
Section QuizScreen.
Import JS GameView GameScreen.

Variable toUpperCase : string -> string.

Lemma levelRank_level (xp : Z) :
  levelRank (level xp) =
  if 300 <=? xp then 3%nat
  else if 150 <=? xp then 2%nat
  else if 50 <=? xp then 1%nat
  else 0%nat.
Proof.
  unfold level.
  destruct (300 <=? xp); [reflexivity|].
  destruct (150 <=? xp); [reflexivity|].
  destruct (50 <=? xp); reflexivity.
Qed.

(** More XP never names a lower level. *)
Theorem level_monotone (xp1 xp2 : Z) :
  xp1 <= xp2 ->
  (levelRank (level xp1) <= levelRank (level xp2))%nat.
Proof.
  intros Hle. rewrite !levelRank_level.
  destruct (300 <=? xp1) eqn:A1, (300 <=? xp2) eqn:A2,
           (150 <=? xp1) eqn:B1, (150 <=? xp2) eqn:B2,
           (50 <=? xp1) eqn:C1, (50 <=? xp2) eqn:C2; lia.
Qed.

(** Once an option is clicked, that option is shown green when the answer
    was judged correct and red when it was not, and every other option is
    green when it carries the correct letter and dimmed otherwise: no option
    but the clicked one can be red. *)
Theorem clicked_option_look (st : State) (q : Question) (opt : string) :
  showResult st = false ->
  currentQuestion st = Some q ->
  exists st',
    handleMCQSelect toUpperCase st opt = Returned st' /\
    optClass toUpperCase q st' opt =
      (if isCorrect st' then optGreen else optRed) /\
    forall o, o <> opt ->
      optClass toUpperCase q st' o =
      (if matchesCorrect toUpperCase q (toUpperCase (charAt o 0))
       then optGreen else optDimmed).
Proof.
  intros Hshow Hq. eexists.
  split; [exact (handleMCQSelect_fresh toUpperCase st q opt Hshow Hq)|].
  unfold optClass, isSelected, verdict. cbn.
  split.
  - destruct (matchesCorrect toUpperCase q (toUpperCase (charAt opt 0)));
      [reflexivity|].
    now rewrite String.eqb_refl.
  - intros o Hne.
    destruct (matchesCorrect toUpperCase q (toUpperCase (charAt o 0)));
      [reflexivity|].
    destruct (String.eqb_spec opt o) as [->|_]; [contradiction | reflexivity].
Qed.

(** What the quiz shows once the questions request has settled: the first
    question for a list that is not empty, the error text for a failed
    request or a body without a list, and, for the empty list, which is
    stored without an error, a card that throws for want of a question. *)
Theorem questions_arrival_screen (o : settled QuestionsResponse) :
  render (fetchQuestions_settle o initial) =
  match o with
  | Rejected => ErrorScreen "Failed to load quiz questions. Try again later."
  | Resolved (Some {| qr_questions := Some (q :: _) |}) => QuestionCard q
  | Resolved (Some {| qr_questions := Some [] |}) => RenderThrows
  | Resolved _ => ErrorScreen "Failed to load questions. Unexpected format."
  end.
Proof.
  destruct o as [|[[[[|q qs]|]]|]]; reflexivity.
Qed.

End QuizScreen.

(** ** Progress over a whole quiz *)
Section QuizProgress.
Import JS GameView QuizSession.

Variable toUpperCase : string -> string.

Lemma step_progress (s s' : Session) (e : Event) :
  step toUpperCase s e = Some s' ->
  score (view s) <= score (view s') <= score (view s) + 1 /\
  (currentQ (view s) <= currentQ (view s'))%nat /\
  (gameComplete (view s) = true -> gameComplete (view s') = true).
Proof.
  unfold step. destruct (crashed s); [discriminate|].
  destruct e as [o|opt|text| |o| ]; cbn [stepOnScreen].
  - destruct (loading (view s)); [|discriminate]. intros [= <-].
    cbn [view].
    destruct (questions_keep o (view s)) as (-> & _ & -> & _ & ->).
    repeat split; auto; lia.
  - destruct (cardQuestion (view s)) as [q|] eqn:Hcard; [|discriminate].
    destruct (cardQuestion_Some _ _ Hcard) as (_ & Hg & Hq).
    destruct (mcqBranch q), (showResult (view s)) eqn:Hs;
      cbn; try discriminate.
    intros [= <-]. cbn [view].
    rewrite (handleMCQSelect_fresh toUpperCase _ q opt Hs Hq). cbn.
    rewrite Hg.
    repeat split; try discriminate; try lia;
      destruct (verdict toUpperCase q opt); lia.
  - destruct (cardQuestion (view s)) as [q|]; [|discriminate].
    destruct (negb (mcqBranch q) && negb (showResult (view s)));
      [|discriminate].
    intros [= <-]. cbn. repeat split; auto; lia.
  - destruct (cardQuestion (view s)) as [q|] eqn:Hcard; [|discriminate].
    destruct (cardQuestion_Some _ _ Hcard) as (_ & Hg & Hq).
    destruct (negb (mcqBranch q) && negb (showResult (view s))
              && negb (negb (truthy (trim (openAnswer (view s))))
                       || grading (view s))) eqn:Hen; [|discriminate].
    apply andb_true_iff in Hen as [_ Hguard].
    apply negb_true_iff in Hguard.
    unfold handleOpenSubmit_begin. rewrite Hguard, Hq.
    intros [= <-]. cbn. rewrite Hg. repeat split; try discriminate; lia.
  - destruct (pending s); [|discriminate].
    destruct (handleOpenSubmit_settle o (view s)) as [st1|] eqn:Hset;
      intros [= <-]; cbn [view].
    + destruct (settle_survives o _ _ Hset)
        as (_ & _ & -> & -> & _ & _ & Hsc).
      repeat split; auto; lia.
    + repeat split; auto; lia.
  - destruct (cardQuestion (view s)) as [q|] eqn:Hcard; [|discriminate].
    destruct (cardQuestion_Some _ _ Hcard) as (_ & Hg & _).
    destruct (showResult (view s)); [|discriminate].
    intros [= <-]. cbn [view]. unfold handleNext.
    destruct (List.length (questions (view s)) <=? currentQ (view s) + 1)%nat;
      cbn; repeat split; auto; lia.
Qed.

Lemma crashed_run (es : list Event) (s : Session) :
  crashed s = true -> run toUpperCase s es = s.
Proof.
  intros Hc. induction es as [|e es IH]; [reflexivity|].
  cbn [run]. unfold step. now rewrite Hc.
Qed.

(** Progress is never undone: over any run of events the count of correct
    answers and the index of the current question never decrease, and a
    completed quiz stays completed.  A component that has crashed on a grade
    without a body takes no event any more. *)
Theorem quiz_progress_is_monotone (es : list Event) (s : Session) :
  score (view s) <= score (view (run toUpperCase s es)) /\
  (currentQ (view s) <= currentQ (view (run toUpperCase s es)))%nat /\
  (gameComplete (view s) = true ->
   gameComplete (view (run toUpperCase s es)) = true) /\
  (crashed s = true -> run toUpperCase s es = s).
Proof.
  split; [|split; [|split; [|apply crashed_run]]];
    revert s; induction es as [|e es IH]; intros s; cbn [run];
    try lia; try tauto;
    (destruct (step toUpperCase s e) as [s1|] eqn:Hstep; [|apply IH]);
    destruct (step_progress s s1 e Hstep) as (H1 & H2 & H3);
    specialize (IH s1); try lia.
  intros Hg. apply IH, H3, Hg.
Qed.

Lemma frozen_step (s : Session) (e : Event) :
  Inv s -> gameComplete (view s) = true -> step toUpperCase s e = None.
Proof.
  intros (_ & Hpend & Hdone) Hg.
  destruct (Hdone Hg) as (Hl & Hc & _).
  assert (Hp : pending s = false).
  { destruct (pending s); [|reflexivity].
    destruct (Hpend eq_refl) as (_ & _ & _ & Hg' & _). congruence. }
  assert (Hcard : cardQuestion (view s) = None).
  { unfold cardQuestion. rewrite Hg. now rewrite !orb_true_r. }
  unfold step. rewrite Hc.
  destruct e; cbn [stepOnScreen]; rewrite ?Hl, ?Hp, ?Hcard; reflexivity.
Qed.

(** Once the quiz is completed no event changes anything any more: the
    results on screen are final, and the component showing them has not
    crashed. *)
Theorem completed_quiz_is_final (es0 es : list Event) :
  gameComplete (view (run toUpperCase start es0)) = true ->
  crashed (run toUpperCase start es0) = false /\
  run toUpperCase (run toUpperCase start es0) es =
  run toUpperCase start es0.
Proof.
  intros Hg.
  pose proof (Inv_run toUpperCase es0 start Inv_start) as HI.
  split.
  - destruct HI as (_ & _ & Hdone). now destruct (Hdone Hg) as (_ & Hc & _).
  - induction es as [|e es IH]; [reflexivity|].
    cbn [run]. now rewrite (frozen_step _ e HI Hg).
Qed.

(** While a grade is awaited the screen offers neither a second submission,
    nor an option to click, nor the next question; the grade is taken
    whatever it is, and it is the one without a body that crashes the
    component. *)
Theorem nothing_but_typing_while_grading (es : list Event) :
  pending (run toUpperCase start es) = true ->
  step toUpperCase (run toUpperCase start es) SubmitAnswer = None /\
  step toUpperCase (run toUpperCase start es) Next = None /\
  (forall opt,
     step toUpperCase (run toUpperCase start es) (SelectOption opt) = None) /\
  (forall o, exists s',
     step toUpperCase (run toUpperCase start es) (GradeSettled o) = Some s' /\
     pending s' = false /\
     (crashed s' = true <-> o = Resolved None)).
Proof.
  intros Hp.
  destruct (Inv_run toUpperCase es start Inv_start) as (_ & Hpend & _).
  destruct (Hpend Hp) as (Hshow & _ & Hgr & _ & Hc & q & Hq & Hopen).
  unfold step. rewrite Hc. cbn [stepOnScreen]. rewrite Hp.
  split; [|split; [|split]].
  - destruct (cardQuestion (run toUpperCase start es).(view)) as [q'|]
      eqn:Hcard; [|reflexivity].
    destruct (cardQuestion_Some _ _ Hcard) as (_ & _ & Hq').
    assert (q' = q) as -> by congruence.
    now rewrite Hshow, Hgr, Hopen, orb_true_r.
  - destruct (cardQuestion (run toUpperCase start es).(view)) as [q'|];
      [|reflexivity].
    now rewrite Hshow.
  - intros opt.
    destruct (cardQuestion (run toUpperCase start es).(view)) as [q'|]
      eqn:Hcard; [|reflexivity].
    destruct (cardQuestion_Some _ _ Hcard) as (_ & _ & Hq').
    assert (q' = q) as -> by congruence.
    now rewrite Hopen.
  - intros o.
    destruct (handleOpenSubmit_settle o (view (run toUpperCase start es)))
      as [st1|] eqn:Hset; eexists; (split; [reflexivity|]);
      cbn [pending crashed]; (split; [reflexivity|]).
    + split; [discriminate|]. intros ->. discriminate.
    + split; [|reflexivity]. intros _.
      exact (proj1 (settle_crashes o _) Hset).
Qed.

(** *** Every question counts once *)

(** An event never takes the quiz back, and one that changes the count of
    correct answers or the XP is the one that shows the result of the current
    question. *)
Lemma step_stage (s s' : Session) (e : Event) :
  Inv s -> step toUpperCase s e = Some s' ->
  (stage s <= stage s')%nat /\
  (contributed s s' = true ->
   showResult (view s) = false /\ showResult (view s') = true /\
   currentQ (view s') = currentQ (view s)).
Proof.
  intros HI. pose proof HI as (_ & Hpend & _).
  unfold step, stage, contributed. destruct (crashed s); [discriminate|].
  destruct e as [o|opt|text| |o| ]; cbn [stepOnScreen].
  - destruct (loading (view s)); [|discriminate]. intros [= <-].
    cbn [view].
    destruct (questions_keep o (view s)) as (-> & -> & -> & -> & _).
    rewrite !Z.eqb_refl. split; [lia | discriminate].
  - destruct (cardQuestion (view s)) as [q|] eqn:Hcard; [|discriminate].
    destruct (cardQuestion_Some _ _ Hcard) as (_ & _ & Hq).
    destruct (mcqBranch q), (showResult (view s)) eqn:Hs;
      cbn; try discriminate.
    intros [= <-]. cbn [view].
    rewrite (handleMCQSelect_fresh toUpperCase _ q opt Hs Hq). cbn.
    split; [lia|]. intros _. repeat split.
  - destruct (cardQuestion (view s)) as [q|]; [|discriminate].
    destruct (negb (mcqBranch q) && negb (showResult (view s)));
      [|discriminate].
    intros [= <-]. cbn. rewrite !Z.eqb_refl. split; [lia | discriminate].
  - destruct (cardQuestion (view s)) as [q|] eqn:Hcard; [|discriminate].
    destruct (cardQuestion_Some _ _ Hcard) as (_ & _ & Hq).
    destruct (negb (mcqBranch q) && negb (showResult (view s))
              && negb (negb (truthy (trim (openAnswer (view s))))
                       || grading (view s))) eqn:Hen; [|discriminate].
    apply andb_true_iff in Hen as [_ Hguard].
    apply negb_true_iff in Hguard.
    unfold handleOpenSubmit_begin. rewrite Hguard, Hq.
    intros [= <-]. cbn. rewrite !Z.eqb_refl. split; [lia | discriminate].
  - destruct (pending s); [|discriminate].
    destruct (Hpend eq_refl) as (Hshow & _).
    destruct (handleOpenSubmit_settle o (view s)) as [st1|] eqn:Hset;
      intros [= <-]; cbn [view].
    + destruct (settle_survives o _ _ Hset) as (-> & _ & -> & _).
      rewrite Hshow. split; [lia|]. intros _. repeat split.
    + rewrite !Z.eqb_refl. split; [lia | discriminate].
  - destruct (cardQuestion (view s)) as [q|]; [|discriminate].
    destruct (showResult (view s)) eqn:Hs; [|discriminate].
    intros [= <-]. cbn [view]. unfold handleNext.
    destruct (List.length (questions (view s)) <=? currentQ (view s) + 1)%nat;
      cbn; rewrite ?Hs, !Z.eqb_refl; (split; [lia | discriminate]).
Qed.

(** The questions that count in a run are the current one, unless its result
    is shown already, and later ones, each once. *)
Lemma contributions_bound (es : list Event) (s : Session) :
  Inv s ->
  Forall (fun i => (stage s <= i)%nat) (contributions toUpperCase s es) /\
  NoDup (contributions toUpperCase s es).
Proof.
  revert s. induction es as [|e es IH]; intros s HI; cbn [contributions].
  - split; constructor.
  - destruct (step toUpperCase s e) as [s1|] eqn:Hstep; [|now apply IH].
    destruct (step_stage s s1 e HI Hstep) as (Hle & Hcontrib).
    pose proof (Inv_step toUpperCase s s1 e HI Hstep) as HI1.
    destruct (IH s1 HI1) as (Hall & Hnd).
    assert (Hall' : Forall (fun i => (stage s <= i)%nat)
                           (contributions toUpperCase s1 es)).
    { eapply Forall_impl; [|exact Hall]. cbn. intros i Hi. lia. }
    destruct (contributed s s1) eqn:Hc; [|now split].
    destruct (Hcontrib eq_refl) as (Hshow & Hshow1 & Hq1).
    split.
    + constructor; [|exact Hall'].
      unfold stage. rewrite Hshow. lia.
    + constructor; [|exact Hnd].
      intros Hin.
      pose proof (proj1 (Forall_forall _ _) Hall _ Hin) as Hi.
      unfold stage in Hi. rewrite Hshow1, Hq1 in Hi. lia.
Qed.

(** C8.  Once the result of the current question is shown, selecting a
    further option leaves the whole state as it is, [selectedAnswer],
    [isCorrect], [score] and [xp] included.  Over every run of events of the
    rendered quiz, from the first render: while a result is shown the screen
    takes no option click, no submission and no grade, and what it does take
    changes neither the count of correct answers nor the XP; an event adds at
    most one to the count; and the questions on which an event changed the
    count or the XP are pairwise different, so that every question counts at
    most once. *)
Theorem question_counts_at_most_once :
  (forall st opt,
     showResult st = true ->
     handleMCQSelect toUpperCase st opt = Returned st) /\
  (forall es,
     let s := run toUpperCase start es in
     showResult (view s) = true ->
     (forall opt, step toUpperCase s (SelectOption opt) = None) /\
     step toUpperCase s SubmitAnswer = None /\
     (forall o, step toUpperCase s (GradeSettled o) = None) /\
     (forall e s', step toUpperCase s e = Some s' ->
                   score (view s') = score (view s) /\
                   xp (view s') = xp (view s))) /\
  (forall es e s',
     step toUpperCase (run toUpperCase start es) e = Some s' ->
     score (view s') <= score (view (run toUpperCase start es)) + 1) /\
  (forall es, NoDup (contributions toUpperCase start es)).
Proof.
  split; [|split; [|split]].
  - intros st opt Hs. exact (handleMCQSelect_shown toUpperCase st opt Hs).
  - intros es s Hs.
    pose proof (Inv_run toUpperCase es start Inv_start) as HI. fold s in HI.
    assert (Hp : pending s = false) by (apply Inv_idle; auto).
    assert (Hopt : forall opt, step toUpperCase s (SelectOption opt) = None).
    { intros opt. unfold step. destruct (crashed s); [reflexivity|].
      cbn [stepOnScreen]. rewrite Hs.
      destruct (cardQuestion (view s)); [|reflexivity].
      now rewrite andb_false_r. }
    assert (Hsub : step toUpperCase s SubmitAnswer = None).
    { unfold step. destruct (crashed s); [reflexivity|].
      cbn [stepOnScreen]. rewrite Hs.
      destruct (cardQuestion (view s)); [|reflexivity].
      now rewrite andb_false_r. }
    assert (Hgrade : forall o, step toUpperCase s (GradeSettled o) = None).
    { intros o. unfold step. destruct (crashed s); [reflexivity|].
      cbn [stepOnScreen]. now rewrite Hp. }
    repeat split; try assumption.
    all: destruct (step_stage s s' e HI H) as (_ & Hcontrib);
      unfold contributed in Hcontrib;
      destruct (score (view s') =? score (view s)) eqn:Hsc;
      destruct (xp (view s') =? xp (view s)) eqn:Hxp;
      cbn in Hcontrib;
      try (destruct (Hcontrib eq_refl) as (Hno & _); congruence);
      try (apply Z.eqb_eq in Hsc); try (apply Z.eqb_eq in Hxp); assumption.
  - intros es e s' Hstep.
    destruct (step_progress _ _ _ Hstep) as (Hsc & _). lia.
  - intros es.
    exact (proj2 (contributions_bound es start Inv_start)).
Qed.

End QuizProgress.

(** ** Quizzes of multiple-choice questions only *)
Section ChoiceQuiz.
Import JS GameView QuizSession.

Variable toUpperCase : string -> string.

Lemma ChoiceInv_start : ChoiceInv start.
Proof. unfold ChoiceInv. cbn. repeat split; lia. Qed.

Lemma card_is_choice (s : Session) (q : Question) :
  ChoiceInv s -> cardQuestion (view s) = Some q -> mcqBranch q = true.
Proof.
  intros (Hall & _) Hcard.
  destruct (cardQuestion_Some _ _ Hcard) as (_ & _ & Hq).
  apply (proj1 (forallb_forall _ _) Hall).
  exact (nth_error_In _ _ Hq).
Qed.

Lemma ChoiceInv_step (s s' : Session) (e : Event) :
  ChoiceInv s -> deliversOnlyChoices e = true ->
  step toUpperCase s e = Some s' -> ChoiceInv s'.
Proof.
  intros HJ He. pose proof HJ as (Hall & Hp & Hxp).
  unfold step. destruct (crashed s); [discriminate|].
  destruct e as [o|opt|text| |o| ]; cbn [stepOnScreen].
  - destruct (loading (view s)); [|discriminate]. intros [= <-].
    unfold ChoiceInv. cbn [view pending].
    destruct (questions_keep o (view s)) as (-> & -> & _).
    split; [|split; assumption].
    unfold fetchQuestions_settle.
    destruct o as [|[[[qs|]]|]]; cbn; try exact Hall. exact He.
  - destruct (cardQuestion (view s)) as [q|] eqn:Hcard; [|discriminate].
    destruct (cardQuestion_Some _ _ Hcard) as (_ & _ & Hq).
    destruct (mcqBranch q), (showResult (view s)) eqn:Hs;
      cbn; try discriminate.
    intros [= <-]. unfold ChoiceInv. cbn [view pending].
    rewrite (handleMCQSelect_fresh toUpperCase _ q opt Hs Hq).
    cbn [stateOf questions score xp].
    split; [exact Hall|]. split; [exact Hp|]. unfold award.
    destruct (verdict toUpperCase q opt), (isEasy (q_difficulty q)); lia.
  - destruct (cardQuestion (view s)) as [q|]; [|discriminate].
    destruct (negb (mcqBranch q) && negb (showResult (view s)));
      [|discriminate].
    intros [= <-]. exact HJ.
  - destruct (cardQuestion (view s)) as [q|] eqn:Hcard; [|discriminate].
    now rewrite (card_is_choice s q HJ Hcard).
  - now rewrite Hp.
  - destruct (cardQuestion (view s)) as [q|]; [|discriminate].
    destruct (showResult (view s)); [|discriminate].
    intros [= <-]. unfold ChoiceInv, handleNext. cbn [view pending].
    destruct (List.length (questions (view s)) <=? currentQ (view s) + 1)%nat;
      cbn [questions score xp setGameComplete setCurrentQ setSelectedAnswer
           setShowResult setIsCorrect setOpenAnswer setGradeFeedback];
      (split; [exact Hall | split; [exact Hp | exact Hxp]]).
Qed.

Lemma ChoiceInv_run (es : list Event) (s : Session) :
  ChoiceInv s -> forallb deliversOnlyChoices es = true ->
  ChoiceInv (run toUpperCase s es).
Proof.
  revert s. induction es as [|e es IH]; intros s HJ Hes; [exact HJ|].
  cbn [forallb] in Hes. apply andb_true_iff in Hes as [He Hes].
  cbn [run]. destruct (step toUpperCase s e) as [s1|] eqn:Hstep.
  - apply IH; [|exact Hes]. exact (ChoiceInv_step s s1 e HJ He Hstep).
  - now apply IH.
Qed.

(** In a quiz whose questions are all multiple-choice every correct answer
    is worth 10 or 20 XP and nothing else earns XP: the XP shown lies between
    10 and 20 times the count of correct answers, and at the end it is at
    most 20 times the number of questions. *)
Theorem choice_quiz_xp_bounds (es : list Event) :
  forallb deliversOnlyChoices es = true ->
  let st := view (run toUpperCase start es) in
  10 * score st <= xp st <= 20 * score st /\
  (gameComplete st = true ->
   xp st <= 20 * Z.of_nat (List.length (questions st))).
Proof.
  intros Hes st.
  destruct (ChoiceInv_run es start ChoiceInv_start Hes) as (_ & _ & Hxp).
  destruct (Inv_run toUpperCase es start Inv_start) as (_ & _ & Hdone).
  fold st in Hxp, Hdone. split; [exact Hxp|].
  intros Hg. destruct (Hdone Hg) as (_ & _ & Hsc). lia.
Qed.

End ChoiceQuiz.

(** ** Sending a chat message *)
Section ChatSending.
Import JS ChatInterface.

(** A send with a blank input, or while a reply is awaited, does nothing:
    no request is made and the conversation, the input and the sources stay
    as they were. *)
Theorem blank_or_busy_send_is_dropped
  (sendChat : ChatRequest -> settled ChatResponse) (videoId : string)
  (st : State) :
  allWhiteSpace (input st) = true \/ loading st = true ->
  handleSend_begin videoId st = (st, None) /\
  handleSend sendChat videoId st = (st, []).
Proof.
  intros Hguard.
  assert (Hb : handleSend_begin videoId st = (st, None)).
  { unfold handleSend_begin. destruct Hguard as [Hblank | Hload].
    - now rewrite (blank_not_truthy _ Hblank).
    - now rewrite Hload, orb_true_r. }
  split; [exact Hb|]. unfold handleSend. now rewrite Hb.
Qed.

Lemma handleSend_settle_messages (o : settled ChatResponse) (st : State) :
  let st' := handleSend_settle o st in
  messages st' = (messages st ++ [replyOf o])%list /\
  input st' = input st /\ loading st' = false /\
  currentSources st' =
    match sources (replyOf o) with
    | Some srcs => srcs
    | None => currentSources st
    end.
Proof.
  unfold handleSend_settle, handleSend_catch.
  destruct o as [|[response|]]; cbn; [now repeat split| |now repeat split].
  destruct (resp_sources response); cbn; now repeat split.
Qed.

(** A send that passes the guard: the request made and the state it is
    settled in. *)
Lemma handleSend_passes
  (sendChat : ChatRequest -> settled ChatResponse) (videoId : string)
  (st : State) :
  truthy (trim (input st)) = true ->
  loading st = false ->
  exists rq st1,
    handleSend sendChat videoId st =
      (handleSend_settle (sendChat rq) st1, [rq]) /\
    messages st1 =
      (messages st ++
       [ {| role := "user"; content := input st; sources := None |} ])%list /\
    input st1 = "" /\ currentSources st1 = [].
Proof.
  intros Hinput Hload. unfold handleSend, handleSend_begin.
  rewrite Hinput, Hload. cbn [negb orb].
  do 2 eexists. split; [reflexivity|]. repeat split.
Qed.

Lemma replyOf_role (o : settled ChatResponse) : role (replyOf o) = "assistant".
Proof. destruct o as [|[r|]]; reflexivity. Qed.

(** A send that passes the guard, once settled, has added exactly two
    messages to the conversation, the user's input as typed and then one
    assistant message (the answer, or the apology when the request failed),
    has emptied the input and is no longer loading. *)
Theorem send_adds_question_and_one_reply
  (sendChat : ChatRequest -> settled ChatResponse) (videoId : string)
  (st : State) :
  truthy (trim (input st)) = true ->
  loading st = false ->
  exists rq,
    let st' := fst (handleSend sendChat videoId st) in
    snd (handleSend sendChat videoId st) = [rq] /\
    messages st' =
      (messages st ++
       [ {| role := "user"; content := input st; sources := None |};
         replyOf (sendChat rq) ])%list /\
    role (replyOf (sendChat rq)) = "assistant" /\
    input st' = "" /\ loading st' = false.
Proof.
  intros Hinput Hload.
  destruct (handleSend_passes sendChat videoId st Hinput Hload)
    as (rq & st1 & -> & Hm1 & Hi1 & _).
  destruct (handleSend_settle_messages (sendChat rq) st1)
    as (Hm & Hi & Hl & _).
  exists rq. cbn [fst snd]. cbv zeta in Hm, Hi, Hl.
  rewrite Hm, Hi, Hl, Hm1, Hi1, <- app_assoc. cbn [app].
  repeat split. apply replyOf_role.
Qed.

(** After a settled send the sources panel holds the citations of the new
    reply, and is empty when the reply has none or the request failed: the
    citations of an earlier answer never stay. *)
Theorem sources_follow_latest_reply
  (sendChat : ChatRequest -> settled ChatResponse) (videoId : string)
  (st : State) :
  truthy (trim (input st)) = true ->
  loading st = false ->
  exists rq,
    snd (handleSend sendChat videoId st) = [rq] /\
    currentSources (fst (handleSend sendChat videoId st)) =
      match sources (replyOf (sendChat rq)) with
      | Some srcs => srcs
      | None => []
      end.
Proof.
  intros Hinput Hload.
  destruct (handleSend_passes sendChat videoId st Hinput Hload)
    as (rq & st1 & -> & _ & _ & Hs1).
  destruct (handleSend_settle_messages (sendChat rq) st1) as (_ & _ & _ & Hs).
  exists rq. cbn [fst snd]. cbv zeta in Hs.
  now rewrite Hs, Hs1.
Qed.

Lemma slice_two_more (A : Type) (l : list A) (a b : A) :
  slice (l ++ [a; b]) (-6) = (slice l (-4) ++ [a; b])%list.
Proof.
  rewrite !slice_negative by lia. rewrite length_app. cbn [List.length].
  change (Z.to_nat (- -6)) with 6%nat. change (Z.to_nat (- -4)) with 4%nat.
  rewrite skipn_app.
  replace (List.length l + 2 - 6)%nat with (List.length l - 4)%nat by lia.
  replace (List.length l - 4 - List.length l)%nat with 0%nat by lia.
  reflexivity.
Qed.

(** The request that follows a settled send carries that exchange: its
    history is the last four earlier messages, then the question just asked
    and the reply just given. *)
Theorem next_history_ends_with_last_exchange
  (sendChat : ChatRequest -> settled ChatResponse) (videoId : string)
  (st : State) :
  truthy (trim (input st)) = true ->
  loading st = false ->
  exists rq,
    snd (handleSend sendChat videoId st) = [rq] /\
    buildHistory (messages (fst (handleSend sendChat videoId st))) =
      (map toTurn (slice (messages st) (-4)) ++
       [ {| turn_role := "user"; turn_content := input st |};
         {| turn_role := "assistant";
            turn_content := content (replyOf (sendChat rq)) |} ])%list.
Proof.
  intros Hinput Hload.
  destruct (handleSend_passes sendChat videoId st Hinput Hload)
    as (rq & st1 & -> & Hm1 & _).
  destruct (handleSend_settle_messages (sendChat rq) st1) as (Hm & _).
  exists rq. cbn [fst snd]. cbv zeta in Hm.
  rewrite Hm, Hm1, <- app_assoc. cbn [app]. unfold buildHistory.
  rewrite slice_two_more, map_app. cbn [map]. unfold toTurn at 2 3.
  cbn [role content]. now rewrite replyOf_role.
Qed.

End ChatSending.

(** ** Turns of a conversation *)
Section ChatTurns.
Import JS ChatInterface ChatSession.

Variable videoId : string.

Lemma alternates_snoc (msgs : list Message) (m : Message) (first : bool) :
  alternates first (msgs ++ [m]) =
  alternates first msgs &&
  (role m =? speaker (xorb first (Nat.odd (List.length msgs))))%string.
Proof.
  revert first. induction msgs as [|x msgs IH]; intros first.
  - cbn. now rewrite xorb_false_r, andb_true_r.
  - cbn [app alternates List.length]. rewrite IH, Nat.odd_succ.
    rewrite <- Nat.negb_odd, <- andb_assoc.
    now destruct first, (Nat.odd (List.length msgs)).
Qed.

Lemma ChatInv_mount (initialMessage : string) : ChatInv (mount initialMessage).
Proof.
  unfold ChatInv, mount. destruct (truthy initialMessage); repeat split.
Qed.

Lemma ChatInv_step (s s' : Session) (e : Event) :
  ChatInv s -> step videoId s e = Some s' -> ChatInv s'.
Proof.
  intros (Halt & Hodd & Hload). destruct e as [text| |o]; cbn [step].
  - destruct (loading (view s)) eqn:Hl; [discriminate|]. intros [= <-].
    unfold ChatInv. cbn. rewrite Hl. repeat split; assumption.
  - unfold handleSend_begin.
    destruct (negb (truthy (trim (input (view s)))) || loading (view s))
      eqn:Hguard.
    + intros [= <-]. repeat split; assumption.
    + intros [= <-]. apply orb_false_iff in Hguard as [_ Hl].
      assert (Hp : pending s = false) by congruence.
      rewrite Hp in Hodd. unfold ChatInv. cbn.
      rewrite alternates_snoc, Halt, Hodd, length_app, Nat.add_1_r,
        Nat.odd_succ, <- Nat.negb_odd, Hodd.
      repeat split.
  - destruct (pending s) eqn:Hp; [|discriminate]. intros [= <-].
    destruct (handleSend_settle_messages o (view s)) as (Hm & _ & Hl & _).
    unfold ChatInv. cbn [view pending]. cbv zeta in Hm, Hl.
    rewrite Hm, Hl, alternates_snoc, Halt, Hodd, length_app, Nat.add_1_r,
      Nat.odd_succ, <- Nat.negb_odd, Hodd.
    cbn. split; [|split; reflexivity].
    destruct o as [|[r|]]; reflexivity.
Qed.

(** Over any run of events the conversation is spoken in turns, assistant
    and user alternating from the greeting on, so that two questions are
    never pending at once and every question gets one reply. *)
Theorem conversation_alternates (initialMessage : string)
  (es : list Event) :
  let s := run videoId (mount initialMessage) es in
  alternates true (messages (view s)) = true /\
  Nat.odd (List.length (messages (view s))) = negb (pending s) /\
  loading (view s) = pending s.
Proof.
  cbv zeta. generalize (ChatInv_mount initialMessage).
  generalize (mount initialMessage) as s.
  induction es as [|e es IH]; intros s HI; [exact HI|].
  cbn [run]. destruct (step videoId s e) as [s1|] eqn:Hstep.
  - apply IH. exact (ChatInv_step s s1 e HI Hstep).
  - now apply IH.
Qed.

End ChatTurns.

(** ** Labels of timestamps and durations *)
Section Labels.
Import JS TimestampSpec.

Lemma toString_inj (a b : Z) : toString a = toString b -> a = b.
Proof.
  unfold toString. intros E.
  apply (f_equal NilEmpty.int_of_string) in E.
  rewrite !NilEmpty.isi in E. injection E as E.
  apply (f_equal Z.of_int) in E. now rewrite !DecimalZ.of_to in E.
Qed.

Lemma string_length_app (s t : string) :
  String.length (s ++ t) = (String.length s + String.length t)%nat.
Proof. induction s as [|c s IH]; cbn; [reflexivity | now rewrite IH]. Qed.

Lemma string_app_assoc (s t u : string) :
  ((s ++ t) ++ u = s ++ (t ++ u))%string.
Proof. induction s as [|c s IH]; cbn; [reflexivity | now rewrite IH]. Qed.

(** Two texts that agree and end in parts of one length agree part by
    part. *)
Lemma append_suffix_inj (s1 s2 t1 t2 : string) :
  (s1 ++ t1 = s2 ++ t2)%string ->
  String.length t1 = String.length t2 ->
  s1 = s2 /\ t1 = t2.
Proof.
  revert s2. induction s1 as [|c s1 IH]; intros [|d s2] E Hlen; cbn in E.
  - now split.
  - exfalso. apply (f_equal String.length) in E. cbn in E.
    rewrite string_length_app in E. lia.
  - exfalso. apply (f_equal String.length) in E. cbn in E.
    rewrite string_length_app in E. lia.
  - injection E as -> E. destruct (IH s2 E Hlen) as [-> ->]. now split.
Qed.

Lemma digit_inj (a b : Z) :
  0 <= a < 10 -> 0 <= b < 10 -> digit a = digit b -> a = b.
Proof.
  unfold digit. intros Ha Hb E.
  apply (f_equal nat_of_ascii) in E.
  rewrite !nat_ascii_embedding in E by lia. lia.
Qed.

Lemma twoDigits_inj (a b : Z) :
  0 <= a < 100 -> 0 <= b < 100 -> twoDigits a = twoDigits b -> a = b.
Proof.
  unfold twoDigits. intros Ha Hb E. injection E as E1 E0.
  apply digit_inj in E1; [|Z.div_mod_to_equations; lia..].
  apply digit_inj in E0; [|Z.div_mod_to_equations; lia..].
  Z.div_mod_to_equations. lia.
Qed.

Lemma minutesSeconds_inj (a b : Z) :
  0 <= a -> 0 <= b -> minutesSeconds a = minutesSeconds b -> a = b.
Proof.
  unfold minutesSeconds. intros Ha Hb E.
  rewrite <- !string_app_assoc in E.
  apply append_suffix_inj in E as [E1 E2]; [|reflexivity].
  apply append_suffix_inj in E1 as [E1 _]; [|reflexivity].
  apply toString_inj in E1.
  apply twoDigits_inj in E2; [|Z.div_mod_to_equations; lia..].
  Z.div_mod_to_equations. lia.
Qed.

(** Two non-negative timestamps get the same label exactly when they fall
    in the same whole second. *)
Theorem formatTime_label_names_the_second (x y : Q) :
  (0 <= x)%Q -> (0 <= y)%Q ->
  (SummaryView.formatTime x = SummaryView.formatTime y <->
   Qfloor x = Qfloor y).
Proof.
  intros Hx Hy. rewrite !formatTime_summary_shape by assumption.
  assert (Hfx : 0 <= Qfloor x).
  { change 0 with (Qfloor 0). now apply Qfloor_resp_le. }
  assert (Hfy : 0 <= Qfloor y).
  { change 0 with (Qfloor 0). now apply Qfloor_resp_le. }
  split; [now apply minutesSeconds_inj | now intros ->].
Qed.

Lemma toString_short_table :
  forallb (fun k => (String.length (toString (Z.of_nat k)) <=? 2)%nat)
          (seq 0 100) = true.
Proof. vm_compute. reflexivity. Qed.

Lemma toString_short (n : Z) :
  0 <= n < 100 -> (String.length (toString n) <= 2)%nat.
Proof.
  intros Hn.
  pose proof (proj1 (forallb_forall _ _) toString_short_table (Z.to_nat n))
    as H.
  cbv beta in H. rewrite Z2Nat.id in H by lia.
  apply Nat.leb_le, H, in_seq. lia.
Qed.

Lemma formatDuration_below_hour (t : Z) :
  0 <= t < 3600 -> VideoCard.formatDuration t = minutesSeconds t.
Proof.
  intros Ht. unfold VideoCard.formatDuration, minutesSeconds.
  rewrite !Z.rem_mod_nonneg by lia.
  pose proof (Z.mod_pos_bound t 60) as H60.
  assert (Hh : t / 3600 = 0) by (apply Z.div_small; lia).
  rewrite Hh, Z.mod_small by lia. cbn [Z.ltb Z.compare].
  now rewrite padStart_twoDigits by lia.
Qed.

Lemma formatDuration_from_hour (t : Z) :
  3600 <= t ->
  VideoCard.formatDuration t =
  toString (t / 3600) ++ ":" ++ twoDigits (t mod 3600 / 60)
                      ++ ":" ++ twoDigits (t mod 60).
Proof.
  intros Ht. unfold VideoCard.formatDuration.
  rewrite !Z.rem_mod_nonneg by lia.
  assert (Hh : 0 < t / 3600) by (apply Z.div_str_pos; lia).
  apply Z.ltb_lt in Hh. rewrite Hh.
  now rewrite !padStart_twoDigits by (Z.div_mod_to_equations; lia).
Qed.

(** The card's duration below one hour is the text m:ss, as for a
    timestamp of the chat and summary views; from one hour on it is
    h:mm:ss, with minutes and seconds in two digits each. *)
Theorem formatDuration_layout (t : Z) :
  0 <= t ->
  (t < 3600 ->
   VideoCard.formatDuration t = minutesSeconds t /\
   VideoCard.formatDuration t = ChatInterface.formatTime (inject_Z t)) /\
  (3600 <= t ->
   VideoCard.formatDuration t =
   toString (t / 3600) ++ ":" ++ twoDigits (t mod 3600 / 60)
                       ++ ":" ++ twoDigits (t mod 60)).
Proof.
  intros Ht. split.
  - intros Hlt. rewrite formatDuration_below_hour by lia.
    split; [reflexivity|].
    assert (Hq : (0 <= inject_Z t)%Q) by (unfold Qle; cbn; lia).
    change (ChatInterface.formatTime (inject_Z t))
      with (SummaryView.formatTime (inject_Z t)).
    rewrite (formatTime_summary_shape _ Hq). now rewrite Qfloor_Z.
  - apply formatDuration_from_hour.
Qed.

(** Different durations never get the same text on the card. *)
Theorem formatDuration_injective (a b : Z) :
  0 <= a -> 0 <= b ->
  VideoCard.formatDuration a = VideoCard.formatDuration b -> a = b.
Proof.
  assert (Hmixed : forall a b, 0 <= a < 3600 -> 3600 <= b ->
            VideoCard.formatDuration a <> VideoCard.formatDuration b).
  { intros a0 b0 Ha0 Hb0 E.
    rewrite (formatDuration_below_hour a0 Ha0),
            (formatDuration_from_hour b0 Hb0) in E.
    unfold minutesSeconds in E.
    rewrite <- !string_app_assoc in E.
    apply append_suffix_inj in E as [E _]; [|reflexivity].
    apply append_suffix_inj in E as [E _]; [|reflexivity].
    apply (f_equal String.length) in E.
    rewrite !string_length_app in E. cbn in E.
    assert (H : 0 <= a0 / 60 < 100) by (Z.div_mod_to_equations; lia).
    pose proof (toString_short (a0 / 60) H). lia. }
  intros Ha Hb E.
  destruct (Z.lt_ge_cases a 3600) as [Ha'|Ha'],
           (Z.lt_ge_cases b 3600) as [Hb'|Hb'].
  - rewrite !formatDuration_below_hour in E by lia.
    now apply minutesSeconds_inj.
  - exfalso. apply (Hmixed a b); [lia | exact Hb' | exact E].
  - exfalso. apply (Hmixed b a); [lia | exact Ha' | now symmetry].
  - rewrite !formatDuration_from_hour in E by lia.
    rewrite <- !string_app_assoc in E.
    apply append_suffix_inj in E as [E Es]; [|reflexivity].
    apply append_suffix_inj in E as [E _]; [|reflexivity].
    apply append_suffix_inj in E as [E Em]; [|reflexivity].
    apply append_suffix_inj in E as [E _]; [|reflexivity].
    apply toString_inj in E.
    apply twoDigits_inj in Es; [|Z.div_mod_to_equations; lia..].
    apply twoDigits_inj in Em; [|Z.div_mod_to_equations; lia..].
    Z.div_mod_to_equations. lia.
Qed.

End Labels.

(** ** Navigation *)
Section Navigation.
Import JS VideoContext App.

Lemma navigate_plain (v : string) (st : State) :
  navigate v None st =
  {| view := v;
     videoData := if (v =? "home")%string then None else videoData st;
     error := if (v =? "home")%string then None else error st;
     loading := loading st;
     initialChatMessage :=
       if (v =? "chat")%string then initialChatMessage st else "" |}.
Proof.
  unfold navigate.
  destruct (v =? "home")%string, (v =? "chat")%string; reflexivity.
Qed.

(** A message handed over with a navigation is kept through later
    navigations to the chat, and the first navigation to any other view
    without a message clears it. *)
Theorem handed_message_lifecycle (v m : string) (st : State) :
  truthy m = true ->
  initialChatMessage (navigate v (Some m) st) = m /\
  (forall vs, forallb (String.eqb "chat") vs = true ->
     initialChatMessage (navigateAll vs (navigate v (Some m) st)) = m) /\
  (forall v' st', v' <> "chat" ->
     initialChatMessage (navigate v' None st') = "").
Proof.
  intros Hm.
  assert (H0 : initialChatMessage (navigate v (Some m) st) = m).
  { unfold navigate. rewrite Hm. reflexivity. }
  split; [exact H0|]. split.
  - intros vs. revert H0. generalize (navigate v (Some m) st) as s.
    induction vs as [|v' vs IH]; intros s Hs Hvs; [exact Hs|].
    cbn [forallb] in Hvs. apply andb_true_iff in Hvs as [Hv Hvs].
    apply String.eqb_eq in Hv. subst v'.
    unfold navigateAll in *. cbn [fold_left]. apply IH; [|exact Hvs].
    now rewrite navigate_plain.
  - intros v' st' Hne. rewrite navigate_plain. cbn.
    destruct (String.eqb_spec v' "chat"); [contradiction | reflexivity].
Qed.

Lemma AppInv_initial : AppInv initial.
Proof. split; [reflexivity|]. left. split; [now left | reflexivity]. Qed.

Lemma AppInv_shown (st : State) :
  AppInv st ->
  hasControls (shown st) = true /\
  (shown st = ShowURLInput -> videoData st = None) /\
  (forall d m, shown st = ShowChat d m -> m = "").
Proof.
  intros (Hmsg & [[Hv Hd] | [Hv Hd]]).
  - assert (Hs : shown st = ShowURLInput).
    { unfold shown. destruct Hv as [-> | ->]; reflexivity. }
    rewrite Hs. split; [reflexivity|].
    split; [intros _; exact Hd | intros d m; discriminate].
  - destruct (videoData st) as [d|] eqn:Hvd; [|contradiction].
    unfold shown. rewrite Hvd, Hmsg.
    destruct Hv as [-> | [-> | [-> | ->]]]; cbn;
      (split; [reflexivity|]; split; [discriminate|];
       intros d' m' E; try discriminate; now injection E as _ <-).
Qed.

Lemma shown_data (st : State) :
  videoData st = None -> shown st = ShowURLInput \/ shown st = ShowNothing.
Proof.
  intros Hd. unfold shown. rewrite Hd.
  destruct ((view st =? "home")%string || (view st =? "processing")%string);
    [now left | now right].
Qed.

Lemma AppInv_step (st st' : State) (e : Event) :
  AppInv st -> carriesData e = true -> step st e = Some st' -> AppInv st'.
Proof.
  intros HI He. pose proof HI as (Hmsg & _). unfold step.
  destruct (shown st) eqn:Hs.
  - (* the URL input *)
    destruct e as [ |[d|]| | | | | | ]; try discriminate; intros [= <-].
    + destruct HI as (_ & [[Hv Hd] | [Hv _]]).
      * split; [exact Hmsg|]. left. split; [now right | exact Hd].
      * exfalso. unfold shown in Hs.
        destruct (videoData st);
          destruct Hv as [Hv | [Hv | [Hv | Hv]]]; rewrite Hv in Hs;
          discriminate.
    + unfold handleMetadataLoaded. rewrite navigate_plain. cbn.
      split; [reflexivity|]. right. split; [now left | discriminate].
  - assert (Hd : videoData st <> None).
    { intros Hd. destruct (shown_data st Hd); congruence. }
    destruct e; try discriminate; intros [= <-]; rewrite navigate_plain; cbn;
      (split; [try reflexivity; exact Hmsg|]);
      first [ left; split; [now left | reflexivity]
            | right; split; [tauto | exact Hd] ].
  - assert (Hd : videoData st <> None).
    { intros Hd. destruct (shown_data st Hd); congruence. }
    destruct e; try discriminate; intros [= <-]; rewrite navigate_plain; cbn;
      (split; [reflexivity|]);
      first [ left; split; [now left | reflexivity]
            | right; split; [tauto | exact Hd] ].
  - assert (Hd : videoData st <> None).
    { intros Hd. destruct (shown_data st Hd); congruence. }
    destruct e; try discriminate; intros [= <-]; rewrite navigate_plain; cbn;
      (split; [reflexivity|]);
      first [ left; split; [now left | reflexivity]
            | right; split; [tauto | exact Hd] ].
  - assert (Hd : videoData st <> None).
    { intros Hd. destruct (shown_data st Hd); congruence. }
    destruct e; try discriminate; intros [= <-]; rewrite navigate_plain; cbn;
      (split; [reflexivity|]);
      first [ left; split; [now left | reflexivity]
            | right; split; [tauto | exact Hd] ].
  - destruct e; discriminate.
Qed.

Lemma AppInv_run (es : list Event) (st : State) :
  AppInv st -> forallb carriesData es = true -> AppInv (run st es).
Proof.
  revert st. induction es as [|e es IH]; intros st HI Hes; [exact HI|].
  cbn [forallb] in Hes. apply andb_true_iff in Hes as [He Hes].
  cbn [run]. destruct (step st e) as [st1|] eqn:Hstep.
  - apply IH; [|exact Hes]. exact (AppInv_step st st1 e HI He Hstep).
  - now apply IH.
Qed.

(** As long as every video response has a body, the app always shows a
    screen with controls, holds no video while the URL input is shown, and
    opens the chat with an empty initial message. *)
Theorem app_always_shows_a_screen (es : list Event) :
  forallb carriesData es = true ->
  let st := run initial es in
  hasControls (shown st) = true /\
  (shown st = ShowURLInput -> videoData st = None) /\
  (forall d m, shown st = ShowChat d m -> m = "").
Proof.
  intros Hes st. apply AppInv_shown.
  exact (AppInv_run es initial AppInv_initial Hes).
Qed.

(** A video response with an empty body leaves the app on a screen with
    nothing on it, and no event leads away from it. *)
Theorem empty_body_blanks_the_app (st : State) (es : list Event) :
  shown (handleMetadataLoaded None st) = ShowNothing /\
  run (handleMetadataLoaded None st) es = handleMetadataLoaded None st.
Proof.
  assert (Hs : shown (handleMetadataLoaded None st) = ShowNothing).
  { unfold handleMetadataLoaded. now rewrite navigate_plain. }
  split; [exact Hs|].
  induction es as [|e es IH]; [reflexivity|].
  cbn [run]. unfold step. rewrite Hs. now destruct e.
Qed.

End Navigation.

(** ** Submitting a video *)
Section Submission.
Import JS.

(** The message of a failed submission is never empty.  A timeout is
    reported as such whatever else the error carries; otherwise a detail
    text sent by the server is shown as it is, a response without one shows
    its status code, and only an error without response falls back on the
    network text or on the error's own message. *)
Theorem process_error_message (err : URLInput.RequestError) :
  truthy (URLInput.errorMessage err) = true /\
  (URLInput.err_code err = Some "ECONNABORTED" ->
   URLInput.errorMessage err =
   "Request timed out. The video is too long or server is busy.") /\
  (URLInput.err_code err <> Some "ECONNABORTED" ->
   forall r, URLInput.err_response err = Some r ->
     (forall d, URLInput.er_detail r = Some d -> d <> "" ->
        URLInput.errorMessage err = d) /\
     (URLInput.er_detail r = None \/ URLInput.er_detail r = Some "" ->
        URLInput.errorMessage err =
        "Server Error (" ++ toString (URLInput.er_status r) ++ ")")).
Proof.
  unfold URLInput.errorMessage.
  split; [|split].
  - destruct (match URLInput.err_code err with
              | Some c => (c =? "ECONNABORTED")%string
              | None => false
              end); [reflexivity|].
    destruct (URLInput.err_response err) as [r|].
    + now apply orString_truthy.
    + destruct (URLInput.err_request err); [reflexivity|].
      now apply orString_truthy.
  - intros ->. reflexivity.
  - intros Hcode r ->.
    assert (Hc : match URLInput.err_code err with
                 | Some c => (c =? "ECONNABORTED")%string
                 | None => false
                 end = false).
    { destruct (URLInput.err_code err) as [c|]; [|reflexivity].
      apply String.eqb_neq. congruence. }
    rewrite Hc. split.
    + intros d -> Hd. cbn. destruct d; [contradiction | reflexivity].
    + apply orString_blank.
Qed.

(** Where a submission of a URL that is not blank ends: a failed request
    leaves the URL input on screen with its message and no spinner, a
    response with a body opens the video card of that body, and a response
    without one leaves nothing on screen. *)
Theorem video_submission_outcome (o : URLInput.Outcome)
  (ui : URLInput.State) (app : VideoContext.State) :
  truthy (trim (URLInput.url ui)) = true ->
  let ui' := fst (Home.submit o ui app) in
  let app' := snd (Home.submit o ui app) in
  URLInput.loading ui' = false /\
  match o with
  | URLInput.Failed err =>
      App.shown app' = App.ShowURLInput /\
      URLInput.error ui' = Some (URLInput.errorMessage err)
  | URLInput.Succeeded (Some d) =>
      App.shown app' = App.ShowVideoCard d /\ URLInput.error ui' = None
  | URLInput.Succeeded None =>
      App.shown app' = App.ShowNothing /\ URLInput.error ui' = None
  end.
Proof.
  intros Hurl. unfold Home.submit, URLInput.handleSubmit_begin.
  rewrite Hurl. cbn [negb].
  destruct o as [err|[d|]]; cbn; repeat split.
Qed.

(** While a video is processed the text under the spinner is always one of
    the four loading messages, the index staying in range. *)
Lemma tick_in_range (msgIndex : nat) (ui : URLInput.State) :
  let (i, ui') := URLInput.tick msgIndex ui in
  (i < 4)%nat /\ In (URLInput.loadingText ui') URLInput.loadingMessages.
Proof.
  unfold URLInput.tick. cbn [List.length URLInput.loadingMessages].
  pose proof (Nat.mod_upper_bound (msgIndex + 1) 4 ltac:(lia)) as Hlt.
  split; [exact Hlt|]. cbn [URLInput.loadingText URLInput.setLoadingText].
  apply nth_In. exact Hlt.
Qed.

(** A blank URL is not submitted: no request, no call on the parent, no
    change of state. *)
Theorem blank_url_is_not_submitted (o : URLInput.Outcome)
  (ui : URLInput.State) (app : VideoContext.State) :
  allWhiteSpace (URLInput.url ui) = true ->
  URLInput.handleSubmit_begin ui = (ui, [], None) /\
  Home.submit o ui app = (ui, app).
Proof.
  intros Hblank.
  assert (Hb : URLInput.handleSubmit_begin ui = (ui, [], None)).
  { unfold URLInput.handleSubmit_begin.
    now rewrite (blank_not_truthy _ Hblank). }
  split; [exact Hb|]. unfold Home.submit. now rewrite Hb.
Qed.

End Submission.

(** * Worked examples *)

(** ** The quiz *)
Section QuizExamples.
Import JS GameView Samples.

Example quizReady_first_question :
  currentQuestion quizReady = Some easyQuestion /\
  loading quizReady = false /\ error quizReady = None.
Proof. repeat split. Qed.

(** Picking 'b. Paris' on the easy question, whose [correct] is 'B'. *)
Example select_right_option :
  handleMCQSelect toUpperCaseAscii quizReady "b. Paris" =
  Returned
    (quizReady |> setSelectedAnswer (Some "b. Paris") |> setIsCorrect true
               |> setShowResult true |> setScore (fun _ => 1)
               |> setXp (fun _ => 10)).
Proof. reflexivity. Qed.

Example select_wrong_option :
  handleMCQSelect toUpperCaseAscii quizReady "A. Lyon" =
  Returned
    (quizReady |> setSelectedAnswer (Some "A. Lyon") |> setIsCorrect false
               |> setShowResult true).
Proof. reflexivity. Qed.

Lemma mcq_judged_by_leading_letter_witness :
  showResult quizReady = false /\
  currentQuestion quizReady = Some easyQuestion /\
  exists st',
    handleMCQSelect toUpperCaseAscii quizReady "b. Paris" = Returned st' /\
    selectedAnswer st' = Some "b. Paris" /\
    (isCorrect st' = true <->
     exists c, q_correct easyQuestion = Some c /\
               toUpperCaseAscii (charAt c 0) =
               toUpperCaseAscii (charAt "b. Paris" 0)).
Proof.
  split; [reflexivity|]. split; [reflexivity|].
  apply (mcq_judged_by_leading_letter toUpperCaseAscii quizReady easyQuestion
           "b. Paris"); reflexivity.
Defined.

Lemma mcq_xp_by_difficulty_witness :
  showResult quizAtHard = false /\
  currentQuestion quizAtHard = Some hardQuestion /\
  exists st',
    handleMCQSelect toUpperCaseAscii quizAtHard "c. Memory" = Returned st' /\
    isCorrect st' = true /\ score st' = score quizAtHard + 1 /\
    xp st' = xp quizAtHard + 20.
Proof.
  split; [reflexivity|]. split; [reflexivity|].
  destruct (mcq_xp_by_difficulty toUpperCaseAscii quizAtHard hardQuestion
              "c. Memory" eq_refl eq_refl) as (st' & Hrun & Hright & _).
  exists st'. split; [exact Hrun|].
  destruct Hright as (Hc & Hsc & _ & Hxp).
  - exists "C". split; reflexivity.
  - split; [exact Hc|]. split; [exact Hsc|]. apply Hxp. discriminate.
Defined.

Example easy_right_and_wrong_choice :
  (exists st',
     handleMCQSelect toUpperCaseAscii quizReady "b. Paris" = Returned st' /\
     isCorrect st' = true /\ score st' = 1 /\ xp st' = 10) /\
  (exists st',
     handleMCQSelect toUpperCaseAscii quizReady "A. Lyon" = Returned st' /\
     isCorrect st' = false /\ score st' = 0 /\ xp st' = 0).
Proof. split; eexists; (split; [reflexivity|]); repeat split. Qed.

Lemma mcq_xp_monotone_in_difficulty_witness :
  showResult quizAtHard = false /\
  currentQuestion quizAtHard = Some hardQuestion /\
  showResult quizReady = false /\
  currentQuestion quizReady = Some easyQuestion /\
  q_difficulty hardQuestion = Some "hard" /\
  q_difficulty easyQuestion = Some "easy" /\
  exists stH' stE',
    handleMCQSelect toUpperCaseAscii quizAtHard "C. Memory" = Returned stH' /\
    handleMCQSelect toUpperCaseAscii quizReady "B. Paris" = Returned stE' /\
    (isCorrect stH' = isCorrect stE' ->
     xp stH' - xp quizAtHard >= xp stE' - xp quizReady) /\
    (isCorrect stH' = true -> isCorrect stE' = true ->
     xp stH' - xp quizAtHard = 20 /\ xp stE' - xp quizReady = 10).
Proof.
  do 6 (split; [reflexivity|]).
  apply (mcq_xp_monotone_in_difficulty toUpperCaseAscii quizAtHard quizReady
           hardQuestion easyQuestion "C. Memory" "B. Paris"); reflexivity.
Defined.

Example real_answer_is_graded :
  handleOpenSubmit generousGrader
    (quizAtOpen |> setOpenAnswer "The transcript changed") =
  (Survives
     (quizAtOpen |> setOpenAnswer "The transcript changed"
                 |> setGradeFeedback
                      (Some {| gr_score := Some 3;
                               gr_feedback := "Great answer.";
                               gr_xp_earned := Some 20 |})
                 |> setShowResult true |> setXp (fun _ => 20)
                 |> setScore (fun _ => 1)),
   [ {| rq_question := "Why is the index rebuilt?";
        rq_correct := Some "Because the transcript changed.";
        rq_userAnswer := "The transcript changed";
        rq_difficulty := Some "medium" |} ]).
Proof. reflexivity. Qed.

Lemma blank_answer_is_never_graded_witness :
  allWhiteSpace (openAnswer quizBlank) = true /\
  handleOpenSubmit_begin quizBlank = (quizBlank, None) /\
  handleOpenSubmit generousGrader quizBlank = (Survives quizBlank, []).
Proof.
  split; [reflexivity|].
  apply (blank_answer_is_never_graded quizBlank generousGrader). reflexivity.
Defined.

Example next_from_first_question :
  handleNext quizShown = quizAtHard |> setScore (fun _ => 1)
                                    |> setXp (fun _ => 10).
Proof. reflexivity. Qed.

Example next_from_last_question :
  handleNext (quizAtOpen |> setShowResult true) =
  quizAtOpen |> setShowResult true |> setGameComplete true.
Proof. reflexivity. Qed.

Example played_quiz_result :
  let st := QuizSession.view
              (QuizSession.run toUpperCaseAscii QuizSession.start playedQuiz) in
  gameComplete st = true /\ score st = 2 /\ xp st = 23 /\
  currentQ st = 2%nat /\ grading st = false.
Proof. repeat split. Qed.

(** The questions that counted in the played quiz: the first and the third,
    the second having been answered wrongly. *)
Example played_quiz_contributions :
  QuizSession.contributions toUpperCaseAscii QuizSession.start playedQuiz
  = [0%nat; 2%nat].
Proof. reflexivity. Qed.

(** A grade without a body crashes the component on its next render: the
    queued XP updater reads a field of [null].  Nothing is taken after it. *)
Example grade_without_body_crashes :
  handleOpenSubmit_settle (Resolved None) quizGrading = Crashes /\
  QuizSession.crashed
    (QuizSession.run toUpperCaseAscii QuizSession.start gradeWithoutBody)
  = true /\
  QuizSession.run toUpperCaseAscii QuizSession.start gradeWithoutBody =
  {| QuizSession.view :=
       QuizSession.view
         (QuizSession.run toUpperCaseAscii QuizSession.start awaitingGrade);
     QuizSession.pending := false;
     QuizSession.crashed := true |}.
Proof.
  split; [reflexivity|]. split; [reflexivity|]. vm_compute. reflexivity.
Qed.

(** Called on its own, [handleOpenSubmit] has no guard on [showResult]: it
    grades an answer whose result is shown once more.  The rendered quiz
    never calls it so, its submit button being rendered only until the
    result is shown. *)
Example open_submit_has_no_result_guard :
  let shown :=
    quizAtOpen |> setOpenAnswer "The transcript changed"
               |> setGradeFeedback
                    (Some {| gr_score := Some 3;
                             gr_feedback := "Great answer.";
                             gr_xp_earned := Some 20 |})
               |> setShowResult true |> setXp (fun _ => 20)
               |> setScore (fun _ => 1) in
  handleOpenSubmit generousGrader shown
  = (Survives (shown |> setXp (fun _ => 40) |> setScore (fun _ => 2)),
     [ {| rq_question := "Why is the index rebuilt?";
          rq_correct := Some "Because the transcript changed.";
          rq_userAnswer := "The transcript changed";
          rq_difficulty := Some "medium" |} ]) /\
  QuizSession.step toUpperCaseAscii
    {| QuizSession.view := shown; QuizSession.pending := false;
       QuizSession.crashed := false |} QuizSession.SubmitAnswer = None.
Proof. split; reflexivity. Qed.

(** C4, the claim as first stated, fails: the state a rejected grading call
    leaves is the state a resolved call with a zero grade leaves, with a
    grade stored and no error set; and a rejected chat call leaves the state
    of a reply with the apology as its answer. *)
Lemma grading_failure_shown_as_zero_grade :
  handleOpenSubmit_settle Rejected quizGrading =
  handleOpenSubmit_settle
    (Resolved (Some {| gr_score := Some 0;
                       gr_feedback := "Error grading answer.";
                       gr_xp_earned := Some 0 |})) quizGrading /\
  (exists st',
     handleOpenSubmit_settle Rejected quizGrading = Survives st' /\
     gradeFeedback st' =
       Some {| gr_score := Some 0; gr_feedback := "Error grading answer.";
               gr_xp_earned := Some 0 |} /\
     showResult st' = true /\
     error st' = None) /\
  ChatInterface.handleSend_settle Rejected chatBusy =
  ChatInterface.handleSend_settle
    (Resolved (Some {| ChatInterface.answer :=
                         "Sorry, I encountered an error. Please try again.";
                       ChatInterface.resp_sources := None |})) chatBusy.
Proof.
  split; [reflexivity|]. split; [|reflexivity].
  eexists. split; [reflexivity|]. repeat split.
Qed.

End QuizExamples.

(** ** The chat, the summary and the timestamps *)
Section ViewExamples.
Import JS TimestampSpec Samples.

Example history_of_nine_messages :
  ChatInterface.buildHistory (ChatInterface.messages chatBusy) =
  [ {| ChatInterface.turn_role := "user";
       ChatInterface.turn_content := "q2" |};
    {| ChatInterface.turn_role := "assistant";
       ChatInterface.turn_content := "a2" |};
    {| ChatInterface.turn_role := "user";
       ChatInterface.turn_content := "q3" |};
    {| ChatInterface.turn_role := "assistant";
       ChatInterface.turn_content := "a3" |};
    {| ChatInterface.turn_role := "user";
       ChatInterface.turn_content := "q4" |};
    {| ChatInterface.turn_role := "assistant";
       ChatInterface.turn_content := "a4" |} ].
Proof. reflexivity. Qed.

Lemma chat_history_is_last_six_witness :
  truthy (trim (ChatInterface.input chatBusy)) = true /\
  ChatInterface.loading chatBusy = false /\
  exists st1 rq,
    ChatInterface.handleSend_begin "dQw4w9WgXcQ" chatBusy = (st1, Some rq) /\
    List.length (ChatInterface.rq_history rq) = 6%nat /\
    ChatInterface.rq_history rq =
      ChatInterface.buildHistory (ChatInterface.messages chatBusy).
Proof.
  split; [reflexivity|]. split; [reflexivity|].
  destruct (chat_history_is_last_six "dQw4w9WgXcQ" chatBusy eq_refl eq_refl)
    as (st1 & rq & Hrun & _ & _ & Hhist & Hlen & _).
  exists st1, rq. split; [exact Hrun|]. split; [exact Hlen | exact Hhist].
Defined.

(** C5, the claim as first stated, fails: a response whose overview is empty
    sets no error and is shown as a summary, with a placeholder overview. *)
Lemma empty_overview_shown_as_summary :
  let st' := SummaryView.fetchSummary_settle (Resolved (Some emptyOverview))
               SummaryView.initial in
  SummaryView.error st' = None /\
  SummaryView.summaryData st' =
    Some {| SummaryView.overview := "No overview available.";
            SummaryView.deep_concepts := [];
            SummaryView.actionable_takeaways := ["Rewatch the demo"] |} /\
  SummaryView.render st' =
    SummaryView.SummaryPanel
      (Some {| SummaryView.overview := "No overview available.";
               SummaryView.deep_concepts := [];
               SummaryView.actionable_takeaways := ["Rewatch the demo"] |}).
Proof. repeat split. Qed.

Example failed_summary_shows_error :
  SummaryView.render
    (SummaryView.fetchSummary_settle Rejected SummaryView.initial) =
  SummaryView.ErrorPanel
    "Failed to load summary. The video might not be fully processed yet.".
Proof. reflexivity. Qed.

Example formatTime_samples :
  SummaryView.formatTime (251 # 2) = "2:05" /\
  ChatInterface.formatTime (3599 # 1) = "59:59" /\
  ChatInterface.formatTime (3600 # 1) = "60:00" /\
  SummaryView.formatTime 0 = "0:00".
Proof. repeat split. Qed.

Lemma formatTime_views_agree_witness :
  (0 <= 251 # 2)%Q /\
  ChatInterface.formatTime (251 # 2) = SummaryView.formatTime (251 # 2) /\
  SummaryView.formatTime (251 # 2) = minutesSeconds (Qfloor (251 # 2)) /\
  0 <= Qfloor (251 # 2) mod 60 < 60 /\
  String.length (twoDigits (Qfloor (251 # 2) mod 60)) = 2%nat.
Proof.
  assert (Hpos : (0 <= 251 # 2)%Q) by (unfold Qle; cbn; lia).
  split; [exact Hpos|].
  apply (formatTime_views_agree (251 # 2) Hpos).
Defined.

End ViewExamples.

(** ** More worked examples *)
Section MoreExamples.
Import JS Samples.

Example formatDuration_samples :
  VideoCard.formatDuration 59 = "0:59" /\
  VideoCard.formatDuration 3599 = "59:59" /\
  VideoCard.formatDuration 3600 = "1:00:00" /\
  VideoCard.formatDuration 3725 = "1:02:05" /\
  ChatInterface.formatTime (3725 # 1) = "62:05".
Proof. repeat split. Qed.

Example refused_video_message :
  URLInput.errorMessage refused = "No transcript available.".
Proof. reflexivity. Qed.

Lemma level_monotone_witness :
  120 <= 310 /\
  (GameScreen.levelRank (GameScreen.level 120)
   <= GameScreen.levelRank (GameScreen.level 310))%nat.
Proof.
  split; [lia|]. apply (level_monotone 120 310). lia.
Defined.

Lemma clicked_option_look_witness :
  GameView.showResult quizReady = false /\
  GameView.currentQuestion quizReady = Some easyQuestion /\
  exists st',
    GameView.handleMCQSelect toUpperCaseAscii quizReady "A. Lyon"
      = Returned st' /\
    GameScreen.optClass toUpperCaseAscii easyQuestion st' "A. Lyon"
      = GameScreen.optRed /\
    GameScreen.optClass toUpperCaseAscii easyQuestion st' "B. Paris"
      = GameScreen.optGreen /\
    GameScreen.optClass toUpperCaseAscii easyQuestion st' "C. Nice"
      = GameScreen.optDimmed.
Proof.
  split; [reflexivity|]. split; [reflexivity|].
  destruct (clicked_option_look toUpperCaseAscii quizReady easyQuestion
              "A. Lyon" eq_refl eq_refl) as (st' & Hrun & Hown & Hother).
  exists st'. split; [exact Hrun|].
  injection Hrun as <-.
  repeat split.
Defined.

Lemma completed_score_bounded_witness :
  let s := QuizSession.run toUpperCaseAscii QuizSession.start playedQuiz in
  GameView.gameComplete (QuizSession.view s) = true /\
  QuizSession.crashed s = false /\
  GameView.score (QuizSession.view s)
  <= Z.of_nat (List.length (GameView.questions (QuizSession.view s))).
Proof.
  split; [reflexivity|].
  apply (completed_score_bounded toUpperCaseAscii playedQuiz). reflexivity.
Defined.

Lemma completed_quiz_is_final_witness :
  GameView.gameComplete
    (QuizSession.view
       (QuizSession.run toUpperCaseAscii QuizSession.start playedQuiz))
  = true /\
  QuizSession.crashed
    (QuizSession.run toUpperCaseAscii QuizSession.start playedQuiz)
  = false /\
  QuizSession.run toUpperCaseAscii
    (QuizSession.run toUpperCaseAscii QuizSession.start playedQuiz)
    [QuizSession.Next; QuizSession.SelectOption "B. Paris";
     QuizSession.SubmitAnswer]
  = QuizSession.run toUpperCaseAscii QuizSession.start playedQuiz.
Proof.
  split; [reflexivity|].
  apply (completed_quiz_is_final toUpperCaseAscii playedQuiz). reflexivity.
Defined.

Lemma nothing_but_typing_while_grading_witness :
  QuizSession.pending
    (QuizSession.run toUpperCaseAscii QuizSession.start awaitingGrade)
  = true /\
  QuizSession.step toUpperCaseAscii
    (QuizSession.run toUpperCaseAscii QuizSession.start awaitingGrade)
    QuizSession.SubmitAnswer = None /\
  QuizSession.step toUpperCaseAscii
    (QuizSession.run toUpperCaseAscii QuizSession.start awaitingGrade)
    QuizSession.Next = None /\
  (forall opt,
     QuizSession.step toUpperCaseAscii
       (QuizSession.run toUpperCaseAscii QuizSession.start awaitingGrade)
       (QuizSession.SelectOption opt) = None) /\
  (forall o, exists s',
     QuizSession.step toUpperCaseAscii
       (QuizSession.run toUpperCaseAscii QuizSession.start awaitingGrade)
       (QuizSession.GradeSettled o) = Some s' /\
     QuizSession.pending s' = false /\
     (QuizSession.crashed s' = true <-> o = Resolved None)).
Proof.
  split; [reflexivity|].
  apply (nothing_but_typing_while_grading toUpperCaseAscii awaitingGrade).
  reflexivity.
Defined.

Lemma choice_quiz_xp_bounds_witness :
  forallb QuizSession.deliversOnlyChoices choiceQuiz = true /\
  let st := QuizSession.view
              (QuizSession.run toUpperCaseAscii QuizSession.start choiceQuiz) in
  (10 * GameView.score st <= GameView.xp st <= 20 * GameView.score st) /\
  (GameView.gameComplete st = true ->
   GameView.xp st <= 20 * Z.of_nat (List.length (GameView.questions st))).
Proof.
  split; [reflexivity|].
  apply (choice_quiz_xp_bounds toUpperCaseAscii choiceQuiz). reflexivity.
Defined.

Example choice_quiz_result :
  let st := QuizSession.view
              (QuizSession.run toUpperCaseAscii QuizSession.start choiceQuiz) in
  GameView.gameComplete st = true /\ GameView.score st = 2 /\
  GameView.xp st = 30 /\ GameScreen.render st = GameScreen.ResultsScreen "Listener".
Proof. repeat split. Qed.

Lemma blank_or_busy_send_is_dropped_witness :
  (allWhiteSpace (ChatInterface.input ChatInterface.initial) = true \/
   ChatInterface.loading ChatInterface.initial = true) /\
  ChatInterface.handleSend_begin "dQw4w9WgXcQ" ChatInterface.initial
    = (ChatInterface.initial, None) /\
  ChatInterface.handleSend citingChat "dQw4w9WgXcQ" ChatInterface.initial
    = (ChatInterface.initial, []).
Proof.
  split; [left; reflexivity|].
  apply (blank_or_busy_send_is_dropped citingChat "dQw4w9WgXcQ"
           ChatInterface.initial).
  left. reflexivity.
Defined.

Lemma send_adds_question_and_one_reply_witness :
  truthy (trim (ChatInterface.input chatBusy)) = true /\
  ChatInterface.loading chatBusy = false /\
  exists rq,
    let st' := fst (ChatInterface.handleSend citingChat "dQw4w9WgXcQ" chatBusy) in
    snd (ChatInterface.handleSend citingChat "dQw4w9WgXcQ" chatBusy) = [rq] /\
    ChatInterface.messages st' =
      (ChatInterface.messages chatBusy ++
       [ {| ChatInterface.role := "user";
            ChatInterface.content := ChatInterface.input chatBusy;
            ChatInterface.sources := None |};
         ChatInterface.replyOf (citingChat rq) ])%list /\
    ChatInterface.role (ChatInterface.replyOf (citingChat rq)) = "assistant" /\
    ChatInterface.input st' = "" /\ ChatInterface.loading st' = false.
Proof.
  split; [reflexivity|]. split; [reflexivity|].
  apply (send_adds_question_and_one_reply citingChat "dQw4w9WgXcQ" chatBusy);
    reflexivity.
Defined.

Lemma sources_follow_latest_reply_witness :
  truthy (trim (ChatInterface.input chatBusy)) = true /\
  ChatInterface.loading chatBusy = false /\
  exists rq,
    snd (ChatInterface.handleSend citingChat "dQw4w9WgXcQ" chatBusy) = [rq] /\
    ChatInterface.currentSources
      (fst (ChatInterface.handleSend citingChat "dQw4w9WgXcQ" chatBusy)) =
      match ChatInterface.sources (ChatInterface.replyOf (citingChat rq)) with
      | Some srcs => srcs
      | None => []
      end.
Proof.
  split; [reflexivity|]. split; [reflexivity|].
  apply (sources_follow_latest_reply citingChat "dQw4w9WgXcQ" chatBusy);
    reflexivity.
Defined.

Lemma next_history_ends_with_last_exchange_witness :
  truthy (trim (ChatInterface.input chatBusy)) = true /\
  ChatInterface.loading chatBusy = false /\
  exists rq,
    snd (ChatInterface.handleSend citingChat "dQw4w9WgXcQ" chatBusy) = [rq] /\
    ChatInterface.buildHistory
      (ChatInterface.messages
         (fst (ChatInterface.handleSend citingChat "dQw4w9WgXcQ" chatBusy))) =
      (map ChatInterface.toTurn
         (slice (ChatInterface.messages chatBusy) (-4)) ++
       [ {| ChatInterface.turn_role := "user";
            ChatInterface.turn_content := ChatInterface.input chatBusy |};
         {| ChatInterface.turn_role := "assistant";
            ChatInterface.turn_content :=
              ChatInterface.content
                (ChatInterface.replyOf (citingChat rq)) |} ])%list.
Proof.
  split; [reflexivity|]. split; [reflexivity|].
  apply (next_history_ends_with_last_exchange citingChat "dQw4w9WgXcQ"
           chatBusy); reflexivity.
Defined.

Lemma formatTime_label_names_the_second_witness :
  (0 <= 251 # 2)%Q /\ (0 <= 1259 # 10)%Q /\
  (SummaryView.formatTime (251 # 2) = SummaryView.formatTime (1259 # 10) <->
   Qfloor (251 # 2) = Qfloor (1259 # 10)).
Proof.
  assert (H1 : (0 <= 251 # 2)%Q) by (unfold Qle; cbn; lia).
  assert (H2 : (0 <= 1259 # 10)%Q) by (unfold Qle; cbn; lia).
  split; [exact H1|]. split; [exact H2|].
  apply (formatTime_label_names_the_second (251 # 2) (1259 # 10) H1 H2).
Defined.

Lemma formatDuration_layout_witness :
  0 <= 3725 /\
  (3725 < 3600 ->
   VideoCard.formatDuration 3725 = TimestampSpec.minutesSeconds 3725 /\
   VideoCard.formatDuration 3725 = ChatInterface.formatTime (inject_Z 3725)) /\
  (3600 <= 3725 ->
   VideoCard.formatDuration 3725 =
   toString (3725 / 3600) ++ ":"
     ++ TimestampSpec.twoDigits (3725 mod 3600 / 60)
     ++ ":" ++ TimestampSpec.twoDigits (3725 mod 60)).
Proof.
  split; [lia|]. apply (formatDuration_layout 3725). lia.
Defined.

Lemma formatDuration_injective_witness :
  0 <= 3725 /\ 0 <= 3600 + 125 /\
  VideoCard.formatDuration 3725 = VideoCard.formatDuration (3600 + 125) /\
  3725 = 3600 + 125.
Proof.
  split; [lia|]. split; [lia|]. split; [reflexivity|].
  apply (formatDuration_injective 3725 (3600 + 125)); [lia | lia | reflexivity].
Defined.

Lemma handed_message_lifecycle_witness :
  truthy "Explain the second question" = true /\
  VideoContext.initialChatMessage
    (VideoContext.navigate "chat" (Some "Explain the second question")
       VideoContext.initial) = "Explain the second question" /\
  (forall vs, forallb (String.eqb "chat") vs = true ->
     VideoContext.initialChatMessage
       (VideoContext.navigateAll vs
          (VideoContext.navigate "chat" (Some "Explain the second question")
             VideoContext.initial)) = "Explain the second question") /\
  (forall v' st', v' <> "chat" ->
     VideoContext.initialChatMessage (VideoContext.navigate v' None st') = "").
Proof.
  split; [reflexivity|].
  apply (handed_message_lifecycle "chat" "Explain the second question"
           VideoContext.initial). reflexivity.
Defined.

Example visit_screens :
  App.shown (App.run VideoContext.initial (firstn 2 visit))
    = App.ShowVideoCard sampleVideo /\
  App.shown (App.run VideoContext.initial (firstn 3 visit))
    = App.ShowChat sampleVideo "" /\
  App.shown (App.run VideoContext.initial (firstn 5 visit))
    = App.ShowGame sampleVideo /\
  App.shown (App.run VideoContext.initial visit) = App.ShowURLInput /\
  VideoContext.videoData (App.run VideoContext.initial visit) = None.
Proof. repeat split. Qed.

Lemma app_always_shows_a_screen_witness :
  forallb App.carriesData visit = true /\
  let st := App.run VideoContext.initial visit in
  App.hasControls (App.shown st) = true /\
  (App.shown st = App.ShowURLInput -> VideoContext.videoData st = None) /\
  (forall d m, App.shown st = App.ShowChat d m -> m = "").
Proof.
  split; [reflexivity|].
  apply (app_always_shows_a_screen visit). reflexivity.
Defined.

Lemma video_submission_outcome_witness :
  truthy (trim (URLInput.url typedUrl)) = true /\
  URLInput.loading
    (fst (Home.submit (URLInput.Failed refused) typedUrl VideoContext.initial))
  = false /\
  App.shown
    (snd (Home.submit (URLInput.Failed refused) typedUrl VideoContext.initial))
  = App.ShowURLInput /\
  URLInput.error
    (fst (Home.submit (URLInput.Failed refused) typedUrl VideoContext.initial))
  = Some (URLInput.errorMessage refused).
Proof.
  split; [reflexivity|].
  apply (video_submission_outcome (URLInput.Failed refused) typedUrl
           VideoContext.initial). reflexivity.
Defined.

Lemma blank_url_is_not_submitted_witness :
  allWhiteSpace (URLInput.url URLInput.initial) = true /\
  URLInput.handleSubmit_begin URLInput.initial
    = (URLInput.initial, [], None) /\
  Home.submit (URLInput.Succeeded (Some sampleVideo)) URLInput.initial
    VideoContext.initial = (URLInput.initial, VideoContext.initial).
Proof.
  split; [reflexivity|].
  apply (blank_url_is_not_submitted (URLInput.Succeeded (Some sampleVideo))
           URLInput.initial VideoContext.initial). reflexivity.
Defined.

End MoreExamples.
